(** * smartos_image: import, update and delete SmartOS images

    A shallow embedding of [cloud/smartos/smartos_image.py] and the
    properties of its reconciliation logic.  The module validates the image
    identifier, checks that the storage pool exists, and then imports or
    deletes the image through the host's [imgadm] tool, reporting the
    outcome through [exit_json] or [fail_json].

    Layout: Python values and dictionaries, the regular expression of the
    identifier and Python's matching of it, the Ansible module handle and the
    host it talks to, the class [IMAGE], [main], and then the theorems. *)

From stdpp Require Import gmap strings.
From Stdlib Require Import ZArith Ascii String List Bool Lia.
Import ListNotations.
Local Open Scope string_scope.
Set Warnings "-register-all".

(** ** Python values

    The values that travel through the module: what [json.loads] returns,
    what is stored in the [result] dictionary and what is passed to
    [fail_json] as keyword arguments.  Dictionaries are keyed by strings. *)

Inductive PyVal :=
| PyNone
| PyBool (b : bool)
| PyInt (z : Z)
| PyFloat (mantissa exponent : Z)
| PyStr (s : string)
| PyList (l : list PyVal)
| PyDict (d : gmap string PyVal).

Abbreviation Dict := (gmap string PyVal).

(** The exceptions the module can run into outside of [fail_json]. *)
Inductive PyExn :=
| TypeError (what : string)
| KeyError (key : string)
| AttributeError (name : string)
| ValueError (what : string).

(** The name of the type of a value, as error messages print it. *)
Definition type_name (v : PyVal) : string :=
  match v with
  | PyNone => "NoneType"
  | PyBool _ => "bool"
  | PyInt _ => "int"
  | PyFloat _ _ => "float"
  | PyStr _ => "str"
  | PyList _ => "list"
  | PyDict _ => "dict"
  end.

(** [obj[key]] for a string key: only a dictionary can be subscripted by a
    string, and the key has to be there.  The class of the exception is what
    the control flow depends on; the message texts are those of CPython 3.11
    and later, and older interpreters word them differently. *)
Definition getitem (obj : PyVal) (key : string) : PyExn + PyVal :=
  match obj with
  | PyDict d =>
      match d !! key with
      | Some v => inr v
      | None => inl (KeyError key)
      end
  | PyList _ => inl (TypeError "list indices must be integers or slices, not str")
  | PyStr _ => inl (TypeError "string indices must be integers, not 'str'")
  | _ => inl (TypeError ("'" +:+ type_name obj +:+ "' object is not subscriptable"))
  end.

(** ** The identifier's regular expression

    [UUID_REGEX = r'^[a-f0-9]{8}-([a-f0-9]{4}-){3}[a-f0-9]{12}$'], as the
    syntax tree of the constructs it uses, and [re.match] on such trees.
    Without flags, [^] matches at offset 0 only, and [$] matches at the end
    of the string and also just before a newline that ends the string. *)

Inductive regex :=
| Bol
| Eol
| Lit (c : ascii)
| Chars (ranges : list (ascii * ascii))
| Cat (r1 r2 : regex)
| Rep (r : regex) (n : nat)
| Grp (r : regex).

Definition newline : ascii := "010"%char.

Definition in_range (lo hi c : ascii) : bool :=
  (nat_of_ascii lo <=? nat_of_ascii c)%nat && (nat_of_ascii c <=? nat_of_ascii hi)%nat.

Definition in_ranges (ranges : list (ascii * ascii)) (c : ascii) : bool :=
  existsb (fun r => in_range (fst r) (snd r) c) ranges.

(** Where [$] succeeds: nothing left, or exactly one newline left. *)
Definition at_end (s : string) : bool :=
  match s with
  | "" => true
  | String c "" => Ascii.eqb c newline
  | _ => false
  end.

(** Backtracking matcher in continuation style: [k] receives the offset and
    the rest of the subject once [r] has matched a prefix. *)
Fixpoint matches (r : regex) (pos : nat) (s : string) (k : nat -> string -> bool) : bool :=
  match r with
  | Bol => Nat.eqb pos 0 && k pos s
  | Eol => at_end s && k pos s
  | Lit c =>
      match s with
      | String a s' => Ascii.eqb a c && k (S pos) s'
      | "" => false
      end
  | Chars ranges =>
      match s with
      | String a s' => in_ranges ranges a && k (S pos) s'
      | "" => false
      end
  | Cat r1 r2 => matches r1 pos s (fun p t => matches r2 p t k)
  | Rep r1 n =>
      (fix rep (n : nat) (pos : nat) (s : string) : bool :=
         match n with
         | O => k pos s
         | S n' => matches r1 pos s (fun p t => rep n' p t)
         end) n pos s
  | Grp r1 => matches r1 pos s k
  end.

(** [re.match(r, s) is not None]: a match has to start at offset 0 and may
    stop anywhere. *)
Definition re_match (r : regex) (s : string) : bool :=
  matches r 0 s (fun _ _ => true).

Definition hexset : regex := Chars [("a"%char, "f"%char); ("0"%char, "9"%char)].

Definition UUID_REGEX : regex :=
  Cat Bol
   (Cat (Rep hexset 8)
    (Cat (Lit "-")
     (Cat (Rep (Grp (Cat (Rep hexset 4) (Lit "-"))) 3)
      (Cat (Rep hexset 12) Eol)))).

(** ** The canonical form of an identifier, as the specification words it

    A canonical identifier is 32 lower-case hexadecimal digits in groups of
    8, 4, 4, 4 and 12 separated by hyphens, and nothing else. *)

Definition is_lower_hex (c : ascii) : bool :=
  in_range "0" "9" c || in_range "a" "f" c.

(** What a position of the textual form may hold. *)
Inductive slot :=
| Hex
| Exactly (c : ascii).

Definition slot_ok (p : slot) (c : ascii) : bool :=
  match p with
  | Hex => is_lower_hex c
  | Exactly d => Ascii.eqb c d
  end.

Definition group (n : nat) : list slot := repeat Hex n.

Definition uuid_template : list slot :=
  group 8 ++ [Exactly "-"] ++ group 4 ++ [Exactly "-"] ++ group 4 ++
  [Exactly "-"] ++ group 4 ++ [Exactly "-"] ++ group 12.

(** [fits t s]: [s] has one character per slot of [t], each as its slot
    demands. *)
Fixpoint fits (t : list slot) (s : string) : bool :=
  match t, s with
  | [], "" => true
  | p :: t', String c s' => slot_ok p c && fits t' s'
  | _, _ => false
  end.

Definition canonical_uuid (s : string) : bool := fits uuid_template s.

(** A canonical identifier followed by exactly one newline. *)
Definition canonical_uuid_newline (s : string) : bool :=
  fits (uuid_template ++ [Exactly newline]) s.

(** ** What the Python runtime provides

    [json.loads] and the conversion behind [%s] are library code; the module
    relies on them without defining them, so they are parameters here.
    [json_loads] answers [None] where [json.loads] raises [ValueError]. *)

Record PyRuntime := {
  json_loads : string -> option PyVal;
  repr : PyVal -> string
}.

(** [str(v)], as [%s] applies it: a string is inserted as it is. *)
Definition str_of (py : PyRuntime) (v : PyVal) : string :=
  match v with
  | PyStr s => s
  | _ => repr py v
  end.

(** ** The Ansible module handle

    [params] after [argument_spec] has been applied, the check-mode flag, and
    the two services of [AnsibleModule] the code calls.  The host answers a
    command with an exit status and two output streams; its answer may depend
    on everything that has been run before, so [run_command] receives the
    commands run so far, oldest first. *)

Record AnsibleModule := {
  params_uuid : string;
  params_state : string;
  params_zpool : string;
  params_update : bool;
  check_mode : bool;
  get_bin_path : string -> option string;
  run_command : list (list string) -> list string -> Z * string * string
}.

(** The attributes [IMAGE.__init__] stores on the instance. *)
Record ImageObj := {
  module : AnsibleModule;
  uuid : string;
  state : string;
  zpool : string;
  update : bool;
  manifest : PyVal
}.

Definition set_manifest (self : ImageObj) (m : PyVal) : ImageObj :=
  {| module := module self; uuid := uuid self; state := state self;
     zpool := zpool self; update := update self; manifest := m |}.

(** ** Running the module

    A run ends in [exit_json], in one of the [fail_json] calls written in
    this module, in the failure of [get_bin_path(name, True)], or in an
    uncaught exception.  [NoExecutable name] is that failure of
    [get_bin_path]: when the executable is missing, [AnsibleModule] itself
    calls [fail_json] with a message of its own about [name], and without
    the keywords of this module.  It is kept apart from [FailJson], which
    holds the keywords of the calls the module writes.  The heap holds the
    one [IMAGE] instance, whose [manifest] attribute [is_local] overwrites,
    and the commands run so far. *)

Inductive Stop :=
| ExitJson (result : Dict)
| FailJson (kwargs : Dict)
| NoExecutable (name : string)
| Raised (e : PyExn).

Record Heap := {
  image : ImageObj;
  ran : list (list string)
}.

Definition M (A : Type) : Type := Heap -> (Stop + A) * Heap.

Definition ret {A} (a : A) : M A := fun h => (inr a, h).

Definition bind {A B} (m : M A) (k : A -> M B) : M B :=
  fun h =>
    match m h with
    | (inr a, h') => k a h'
    | (inl s, h') => (inl s, h')
    end.

Declare Scope run_scope.
Delimit Scope run_scope with run.
Notation "'do' x <- m 'in' k" := (bind m (fun x => k))
  (at level 10, x pattern, m at level 100, k at level 200) : run_scope.
Notation "m '>>' k" := (bind m (fun _ => k))
  (at level 100, k at level 200, right associativity) : run_scope.
Local Open Scope run_scope.

Definition stop {A} (s : Stop) : M A := fun h => (inl s, h).
Definition fail_json {A} (kwargs : Dict) : M A := stop (FailJson kwargs).
Definition exit_json {A} (result : Dict) : M A := stop (ExitJson result).
Definition raise {A} (e : PyExn) : M A := stop (Raised e).

Definition self : M ImageObj := fun h => (inr (image h), h).

Definition store_manifest (m : PyVal) : M unit :=
  fun h => (inr tt, {| image := set_manifest (image h) m; ran := ran h |}).

(** [obj[key]], raising what [getitem] reports. *)
Definition subscript (obj : PyVal) (key : string) : M PyVal :=
  match getitem obj key with
  | inr v => ret v
  | inl e => raise e
  end.

Definition loads (py : PyRuntime) (text : string) : M PyVal :=
  match json_loads py text with
  | Some v => ret v
  | None => raise (ValueError "No JSON object could be decoded")
  end.

(** [self.module.get_bin_path(name, True)]: the path, or the library's own
    [fail_json] for a required executable that is missing. *)
Definition bin_path (name : string) : M string :=
  do img <- self in
  match get_bin_path (module img) name with
  | Some p => ret p
  | None => stop (NoExecutable name)
  end.

(** [self.module.run_command(cmd)]: the host answers, and the command joins
    the record of what has been run. *)
Definition run (cmd : list string) : M (Z * string * string) :=
  fun h =>
    (inr (run_command (module (image h)) (ran h) cmd),
     {| image := image h; ran := ran h ++ [cmd] |}).

(** [if self.zpool: cmd.append('-P'); cmd.append(self.zpool)] *)
Definition pool_scope (zpool : string) : list string :=
  if String.eqb zpool "" then [] else ["-P"; zpool].

(** The command lines, as the methods append them together. *)
Definition imgadm_cmd (bin verb zpool uuid : string) : list string :=
  [bin; verb] ++ pool_scope zpool ++ [uuid].

Definition update_cmd (bin uuid : string) : list string :=
  [bin; "update"; uuid].

Definition zpool_cmd (bin zpool : string) : list string :=
  [bin; "list"; zpool].

(** ** class IMAGE *)

Module IMAGE.

Definition init (m : AnsibleModule) : ImageObj :=
  {| module := m;
     uuid := params_uuid m;
     state := params_state m;
     zpool := params_zpool m;
     update := params_update m;
     manifest := PyStr "init" |}.

Definition is_local (py : PyRuntime) : M bool :=
  do bin <- bin_path "imgadm" in
  do img <- self in
  do (rc, info, _) <- run (imgadm_cmd bin "info" (zpool img) (uuid img)) in
  if (rc =? 0)%Z then
    do doc <- loads py info in
    do m <- subscript doc "manifest" in
    store_manifest m >>
    ret true
  else
    ret false.

Definition zpool_exists : M bool :=
  do bin <- bin_path "zpool" in
  do img <- self in
  do (rc, _, _) <- run (zpool_cmd bin (zpool img)) in
  ret (rc =? 0)%Z.

Definition has_valid_uuid : M bool :=
  do img <- self in
  ret (re_match UUID_REGEX (uuid img)).

Definition import_image : M (Z * string * string) :=
  do bin <- bin_path "imgadm" in
  do img <- self in
  run (imgadm_cmd bin "import" (zpool img) (uuid img)).

Definition delete : M (Z * string * string) :=
  do bin <- bin_path "imgadm" in
  do img <- self in
  run (imgadm_cmd bin "delete" (zpool img) (uuid img)).

Definition update : M (Z * string * string) :=
  do bin <- bin_path "imgadm" in
  do img <- self in
  run (update_cmd bin (uuid img)).

End IMAGE.

(** ** Attribute lookup on the instance

    [image.name] looks in the instance first and in the class second.
    [__init__] stores the five parameters on the instance; one of them,
    [update], has the name of a function of the class. *)

Inductive Attribute :=
| InstanceValue (v : PyVal)
| ClassFunction (f : M (Z * string * string)).

Definition instance_dict (img : ImageObj) (name : string) : option PyVal :=
  if String.eqb name "uuid" then Some (PyStr (uuid img))
  else if String.eqb name "state" then Some (PyStr (state img))
  else if String.eqb name "zpool" then Some (PyStr (zpool img))
  else if String.eqb name "update" then Some (PyBool (update img))
  else if String.eqb name "manifest" then Some (manifest img)
  else None.

(** The functions of the class that run a command and hand back its
    answer. *)
Definition class_dict (name : string) : option (M (Z * string * string)) :=
  if String.eqb name "import_image" then Some IMAGE.import_image
  else if String.eqb name "delete" then Some IMAGE.delete
  else if String.eqb name "update" then Some IMAGE.update
  else None.

Definition getattr (name : string) : M Attribute :=
  do img <- self in
  match instance_dict img name with
  | Some v => ret (InstanceValue v)
  | None =>
      match class_dict name with
      | Some f => ret (ClassFunction f)
      | None => raise (AttributeError name)
      end
  end.

(** The truth value of a Python value. *)
Definition truthy (v : PyVal) : bool :=
  match v with
  | PyNone => false
  | PyBool b => b
  | PyInt z => negb (z =? 0)%Z
  | PyFloat m _ => negb (m =? 0)%Z
  | PyStr s => negb (String.eqb s "")
  | PyList l => negb (Nat.eqb (List.length l) 0)
  | PyDict d => negb (Nat.eqb (size d) 0)
  end.

(** [if a:] *)
Definition is_true (a : Attribute) : bool :=
  match a with
  | InstanceValue v => truthy v
  | ClassFunction _ => true
  end.

(** [a()]: a function of the class runs; a stored value is not callable. *)
Definition call (a : Attribute) : M (Z * string * string) :=
  match a with
  | ClassFunction f => f
  | InstanceValue v =>
      raise (TypeError ("'" +:+ type_name v +:+ "' object is not callable"))
  end.

(** ** main *)

(** [s] between double quotes. *)
Definition quoted (s : string) : string :=
  String "034"%char s +:+ String "034"%char "".

(** The text given to [json.loads] for the check-mode placeholder. *)
Definition faked_text : string :=
  "{ " +:+ quoted "faked" +:+ ": " +:+ quoted "True" +:+ ", " +:+
  quoted "reason" +:+ ": " +:+ quoted "check_mode" +:+ " }".

(** [fail_json(msg=..., uuid=image.uuid, zpool=image.zpool)] *)
Definition failure (msg uuid zpool : string) : Dict :=
  {[ "msg" := PyStr msg; "uuid" := PyStr uuid; "zpool" := PyStr zpool ]}.

(** [fail_json(msg=..., uuid=..., zpool=..., rc=rc, stderr=str(err), stdout=str(out))] *)
Definition command_failure (msg uuid zpool : string) (rc : Z) (out err : string) : Dict :=
  {[ "msg" := PyStr msg; "uuid" := PyStr uuid; "zpool" := PyStr zpool;
     "rc" := PyInt rc; "stderr" := PyStr err; "stdout" := PyStr out ]}.

(** An [if] without [else]. *)
Definition when (c : bool) (body : M unit) : M unit :=
  if c then body else ret tt.

(** The locals of [main] that the two state branches may assign. *)
Record Locals := {
  result : Dict;
  out : string;
  err : string
}.

(** The block under [if image.state == 'present':].  In normal mode the
    import is run whether or not the image is there, and [result] is left as
    it is. *)
Definition state_present (py : PyRuntime) (m : AnsibleModule) (l : Locals) : M Locals :=
  if check_mode m then
    do local <- IMAGE.is_local py in
    if local then
      do img <- self in
      do name <- subscript (manifest img) "name" in
      ret {| result := result l;
             out := "Image " +:+ uuid img +:+ " (" +:+ str_of py name +:+
                    ") is already installed, skipping.";
             err := err l |}
    else
      do faked <- loads py faked_text in
      ret {| result := <["manifest" := faked]> (<["changed" := PyBool true]> (result l));
             out := "have to download image";
             err := err l |}
  else
    do import_image <- getattr "import_image" in
    do (rc, out1, err1) <- call import_image in
    do img <- self in
    when (negb (rc =? 0)%Z)
      (fail_json (command_failure "Error importing image!" (uuid img) (zpool img) rc out1 err1)) >>
    do flag <- getattr "update" in
    if is_true flag then
      do update <- getattr "update" in
      do (rc, out2, err2) <- call update in
      do img <- self in
      when (negb (rc =? 0)%Z)
        (fail_json (command_failure "Error updating image!" (uuid img) (zpool img) rc out2 err2)) >>
      ret {| result := result l; out := out2; err := err2 |}
    else
      ret {| result := result l; out := out1; err := err1 |}.

(** The block under [if image.state == 'absent':]. *)
Definition state_absent (py : PyRuntime) (m : AnsibleModule) (l : Locals) : M Locals :=
  do local <- IMAGE.is_local py in
  if local then
    let l1 := {| result := <["changed" := PyBool true]> (result l);
                 out := out l; err := err l |} in
    if negb (check_mode m) then
      do delete <- getattr "delete" in
      do (rc, out1, err1) <- call delete in
      do img <- self in
      when (negb (rc =? 0)%Z)
        (fail_json (command_failure "Error deleting image!" (uuid img) (zpool img) rc out1 err1)) >>
      ret {| result := result l1; out := out1; err := err1 |}
    else
      ret l1
  else
    do img <- self in
    ret {| result := result l;
           out := "Image " +:+ quoted (uuid img) +:+ " was not found on zpool " +:+
                  quoted (zpool img) +:+ ".";
           err := err l |}.

(** The last lines of [main]: fill in the report, probe once more, exit.
    [out] and [err] are strings on every path, and [str] leaves a string as
    it is. *)
Definition finish (py : PyRuntime) (l : Locals) : M unit :=
  do img <- self in
  let r := <["zpool" := PyStr (zpool img)]>
           (<["state" := PyStr (state img)]>
           (<["uuid" := PyStr (uuid img)]>
           (<["stderr" := PyStr (err l)]>
           (<["stdout" := PyStr (out l)]> (result l))))) in
  do local <- IMAGE.is_local py in
  do r <- (if local
           then do img <- self in ret (<["manifest" := manifest img]> r)
           else ret r) in
  exit_json r.

(** The body of [main] once [image = IMAGE(module)] is on the heap: the two
    checks, the two state blocks one after the other, and the closing
    lines. *)
Definition main_body (py : PyRuntime) (m : AnsibleModule) : M unit :=
  let l := {| result := {[ "changed" := PyBool false ]}; out := ""; err := "" |} in
  do valid <- IMAGE.has_valid_uuid in
  do img <- self in
  when (negb valid) (fail_json (failure "Invalid image UUID." (uuid img) (zpool img))) >>
  do pool <- IMAGE.zpool_exists in
  do img <- self in
  when (negb pool) (fail_json (failure "zpool is not available." (uuid img) (zpool img))) >>
  do img <- self in
  do l <- (if String.eqb (state img) "present" then state_present py m l else ret l) in
  do img <- self in
  do l <- (if String.eqb (state img) "absent" then state_absent py m l else ret l) in
  finish py l.

(** [main()]: how the run ends, and the heap it leaves, whose [ran] lists
    every command the run has issued. *)
Definition main (py : PyRuntime) (m : AnsibleModule) : (Stop + unit) * Heap :=
  main_body py m {| image := IMAGE.init m; ran := [] |}.

Definition outcome (py : PyRuntime) (m : AnsibleModule) : Stop + unit := fst (main py m).
Definition commands (py : PyRuntime) (m : AnsibleModule) : list (list string) :=
  ran (snd (main py m)).

(** ** Vocabulary of the properties

    The error kinds of the specification are told apart by the message that
    [fail_json] carries. *)

Inductive ErrorKind :=
| InvalidInput
| PoolNotFound
| ImportFailed
| UpdateFailed
| DeleteFailed.

Definition message (k : ErrorKind) : string :=
  match k with
  | InvalidInput => "Invalid image UUID."
  | PoolNotFound => "zpool is not available."
  | ImportFailed => "Error importing image!"
  | UpdateFailed => "Error updating image!"
  | DeleteFailed => "Error deleting image!"
  end.

Definition fails_with (k : ErrorKind) (o : Stop + unit) : Prop :=
  exists kw, o = inl (FailJson kw) /\ kw !! "msg" = Some (PyStr (message k)).

(** A failure that carries the exit code and the two output streams. *)
Definition carries_diagnostics (kw : Dict) : Prop :=
  is_Some (kw !! "rc") /\ is_Some (kw !! "stdout") /\ is_Some (kw !! "stderr").

Definition exit_status (answer : Z * string * string) : Z := answer.1.1.

(** The second word of a command line names the operation. *)
Definition verb (cmd : list string) : string := nth 1 cmd "".

Definition mutating (cmd : list string) : bool :=
  String.eqb (verb cmd) "import" || String.eqb (verb cmd) "update" ||
  String.eqb (verb cmd) "delete".

(** What the info query tells when it is issued after [history]: the image
    is absent, present with a manifest, or the query cannot be used (no
    [imgadm], or an answer that is not a document with a manifest). *)
Inductive Probe :=
| Absent
| Present (manifest : PyVal)
| Unusable.

Definition probe (py : PyRuntime) (m : AnsibleModule) (history : list (list string)) : Probe :=
  match get_bin_path m "imgadm" with
  | None => Unusable
  | Some bin =>
      let '(rc, info, _) :=
        run_command m history (imgadm_cmd bin "info" (params_zpool m) (params_uuid m)) in
      if (rc =? 0)%Z then
        match json_loads py info with
        | None => Unusable
        | Some doc =>
            match getitem doc "manifest" with
            | inr v => Present v
            | inl _ => Unusable
            end
        end
      else Absent
  end.

Definition is_present (p : Probe) : bool :=
  match p with
  | Present _ => true
  | _ => false
  end.

(** ** A host to run the module on

    One image store and a list of pools.  The image is in the store after an
    import that worked and until a delete; [imgadm info] answers with the
    document of the image when it is there. *)

Definition sample_uuid : string := "d183f500-9a96-11e6-8976-ff3967dc023a".

Definition sample_info : string :=
  "{ " +:+ quoted "manifest" +:+ ": { " +:+ quoted "name" +:+ ": " +:+
  quoted "debian-8" +:+ " } }".

Definition sample_manifest : PyVal := PyDict {[ "name" := PyStr "debian-8" ]}.

Definition faked_manifest : PyVal :=
  PyDict {[ "faked" := PyStr "True"; "reason" := PyStr "check_mode" ]}.

Definition sample_py : PyRuntime :=
  {| json_loads := fun text =>
       if String.eqb text faked_text then Some faked_manifest
       else if String.eqb text sample_info
            then Some (PyDict {[ "manifest" := sample_manifest ]})
            else None;
     repr := fun _ => "?" |}.

Definition installed (import_rc : Z) (before : bool) (history : list (list string)) : bool :=
  fold_left
    (fun have cmd =>
       if String.eqb (verb cmd) "import" then (import_rc =? 0)%Z || have
       else if String.eqb (verb cmd) "delete" then false
       else have)
    history before.

Definition sample_host (pools : list string) (before : bool) (import_rc : Z)
    (history : list (list string)) (cmd : list string) : Z * string * string :=
  if String.eqb (verb cmd) "list" then
    if existsb (String.eqb (nth 2 cmd "")) pools
    then (0%Z, "", "")
    else (1%Z, "", "cannot open pool: no such pool")
  else if String.eqb (verb cmd) "info" then
    if installed import_rc before history
    then (0%Z, sample_info, "")
    else (3%Z, "", "imgadm info: error (ImageNotInstalled)")
  else if String.eqb (verb cmd) "import" then
    if (import_rc =? 0)%Z
    then (0%Z, "Imported image", "")
    else (import_rc, "", "imgadm import: error")
  else (0%Z, "", "").

Definition sample_module (uuid state zpool : string) (update check : bool)
    (pools : list string) (before : bool) (import_rc : Z) : AnsibleModule :=
  {| params_uuid := uuid;
     params_state := state;
     params_zpool := zpool;
     params_update := update;
     check_mode := check;
     get_bin_path := fun name => Some ("/usr/sbin/" +:+ name);
     run_command := sample_host pools before import_rc |}.

(** The runs the properties are tried on.  The pool [zones] exists on each
    host; [tank] does not. *)

(** Normal mode, state present, image not in the store, import exits 0. *)
Definition run_import : AnsibleModule :=
  sample_module sample_uuid "present" "zones" false false ["zones"] false 0.

(** The same with the update flag set. *)
Definition run_import_update : AnsibleModule :=
  sample_module sample_uuid "present" "zones" true false ["zones"] false 0.

(** The same as [run_import], the identifier followed by a newline. *)
Definition run_newline : AnsibleModule :=
  sample_module (sample_uuid +:+ String newline "") "present" "zones" false false
    ["zones"] false 0.

(** The import exits 1. *)
Definition run_import_fails : AnsibleModule :=
  sample_module sample_uuid "present" "zones" false false ["zones"] false 1.

(** The requested pool is missing. *)
Definition run_no_pool : AnsibleModule :=
  sample_module sample_uuid "present" "tank" false false ["zones"] false 0.

(** Check mode, state present, image not in the store. *)
Definition run_check_present : AnsibleModule :=
  sample_module sample_uuid "present" "zones" false true ["zones"] false 0.

(** Check mode, state absent, image in the store. *)
Definition run_check_absent : AnsibleModule :=
  sample_module sample_uuid "absent" "zones" false true ["zones"] true 0.

(** Normal mode, state absent, image not in the store. *)
Definition run_absent : AnsibleModule :=
  sample_module sample_uuid "absent" "zones" false false ["zones"] false 0.

(** ** JSON, as [json.loads] reads it

    A reference reader for the part of JSON that needs no arithmetic on
    floating-point values: objects, arrays, strings with their escapes,
    numbers, [true], [false] and [null], with the white space JSON allows.
    An integer is read as [PyInt]; a number with a fraction or an exponent
    as the decimal [PyFloat mantissa exponent].  In an object a later member
    replaces an earlier one of the same name.  A text outside this part
    ([NaN], [Infinity], a surrogate escape) and a text that is not JSON are
    answered with [None]. *)

Definition quote : ascii := "034"%char.
Definition backslash : ascii := "092"%char.

Definition is_space (c : ascii) : bool :=
  Ascii.eqb c " " || Ascii.eqb c "009" || Ascii.eqb c "010" || Ascii.eqb c "013".

Fixpoint skip_space (s : string) : string :=
  match s with
  | String c s' => if is_space c then skip_space s' else s
  | "" => ""
  end.

Fixpoint strip_prefix (p s : string) : option string :=
  match p, s with
  | "", _ => Some s
  | String a p', String b s' => if Ascii.eqb a b then strip_prefix p' s' else None
  | _, "" => None
  end.

Definition hex_value (c : ascii) : option N :=
  if in_range "0" "9" c then Some (N_of_ascii c - 48)%N
  else if in_range "a" "f" c then Some (N_of_ascii c - 87)%N
  else if in_range "A" "F" c then Some (N_of_ascii c - 55)%N
  else None.

(** The UTF-8 bytes of a code point of the basic plane. *)
Definition utf8 (n : N) : option string :=
  if (n <? 128)%N then Some (String (ascii_of_N n) "")
  else if (n <? 2048)%N then
    Some (String (ascii_of_N (192 + n / 64))
            (String (ascii_of_N (128 + n mod 64)) ""))
  else if (55296 <=? n)%N && (n <? 57344)%N then None
  else
    Some (String (ascii_of_N (224 + n / 4096))
            (String (ascii_of_N (128 + (n / 64) mod 64))
               (String (ascii_of_N (128 + n mod 64)) ""))).

(** What follows a backslash: the text it stands for and the rest. *)
Definition read_escape (s : string) : option (string * string) :=
  match s with
  | String c r =>
      if Ascii.eqb c quote then Some (String quote "", r)
      else if Ascii.eqb c backslash then Some (String backslash "", r)
      else if Ascii.eqb c "/" then Some ("/", r)
      else if Ascii.eqb c "b" then Some (String "008" "", r)
      else if Ascii.eqb c "f" then Some (String "012" "", r)
      else if Ascii.eqb c "n" then Some (String "010" "", r)
      else if Ascii.eqb c "r" then Some (String "013" "", r)
      else if Ascii.eqb c "t" then Some (String "009" "", r)
      else if Ascii.eqb c "u" then
        match r with
        | String h1 (String h2 (String h3 (String h4 r'))) =>
            match hex_value h1, hex_value h2, hex_value h3, hex_value h4 with
            | Some a, Some b, Some c', Some d =>
                match utf8 (((a * 16 + b) * 16 + c') * 16 + d)%N with
                | Some t => Some (t, r')
                | None => None
                end
            | _, _, _, _ => None
            end
        | _ => None
        end
      else None
  | "" => None
  end.

(** The characters of a string after its opening quote, up to the closing
    one. *)
Fixpoint read_string (fuel : nat) (s : string) : option (string * string) :=
  match fuel with
  | O => None
  | S n =>
      match s with
      | "" => None
      | String c r =>
          if Ascii.eqb c quote then Some ("", r)
          else if Ascii.eqb c backslash then
            match read_escape r with
            | Some (t, r') =>
                match read_string n r' with
                | Some (u, r'') => Some (t +:+ u, r'')
                | None => None
                end
            | None => None
            end
          else if (N_of_ascii c <? 32)%N then None
          else
            match read_string n r with
            | Some (u, r') => Some (String c u, r')
            | None => None
            end
      end
  end.

(** A run of decimal digits: its value, how many there are, and the rest. *)
Fixpoint read_digits (s : string) (value : Z) (count : nat) : Z * nat * string :=
  match s with
  | String c r =>
      if in_range "0" "9" c
      then read_digits r (value * 10 + (Z.of_N (N_of_ascii c) - 48))%Z (S count)
      else (value, count, s)
  | "" => (value, count, s)
  end.

(** The integer part: a single [0], or digits that start with none. *)
Definition read_int (s : string) : option (Z * string) :=
  match s with
  | String c r =>
      if Ascii.eqb c "0" then Some (0%Z, r)
      else
        match read_digits s 0%Z 0 with
        | (_, O, _) => None
        | (v, _, r') => Some (v, r')
        end
  | "" => None
  end.

(** A fraction [.digits]: its digits as a number, and how many. *)
Definition read_fraction (s : string) : option (Z * nat * string) :=
  match s with
  | String c r =>
      if Ascii.eqb c "." then
        match read_digits r 0%Z 0 with
        | (_, O, _) => None
        | (v, k, r') => Some (v, k, r')
        end
      else None
  | "" => None
  end.

(** An exponent [e], [e+] or [e-] and digits. *)
Definition read_exponent (s : string) : option (Z * string) :=
  match s with
  | String c r =>
      if Ascii.eqb c "e" || Ascii.eqb c "E" then
        let '(negative, r1) :=
          match r with
          | String d r' =>
              if Ascii.eqb d "-" then (true, r')
              else if Ascii.eqb d "+" then (false, r')
              else (false, r)
          | "" => (false, r)
          end in
        match read_digits r1 0%Z 0 with
        | (_, O, _) => None
        | (v, _, r2) => Some (if negative then (- v)%Z else v, r2)
        end
      else None
  | "" => None
  end.

Definition read_number (s : string) : option (PyVal * string) :=
  let '(negative, s1) :=
    match s with
    | String c r => if Ascii.eqb c "-" then (true, r) else (false, s)
    | "" => (false, s)
    end in
  let sign := fun z : Z => if negative then (- z)%Z else z in
  match read_int s1 with
  | None => None
  | Some (i, r1) =>
      match read_fraction r1 with
      | Some (f, k, r2) =>
          let mantissa := (i * 10 ^ Z.of_nat k + f)%Z in
          match read_exponent r2 with
          | Some (e, r3) => Some (PyFloat (sign mantissa) (e - Z.of_nat k), r3)
          | None => Some (PyFloat (sign mantissa) (- Z.of_nat k), r2)
          end
      | None =>
          match read_exponent r1 with
          | Some (e, r3) => Some (PyFloat (sign i) e, r3)
          | None => Some (PyInt (sign i), r1)
          end
      end
  end.

(** A value, the elements of an array after its bracket, and the members of
    an object after its brace.  Each call uses up one unit of [fuel]. *)
Fixpoint read_value (fuel : nat) (s : string) : option (PyVal * string) :=
  match fuel with
  | O => None
  | S n =>
      match skip_space s with
      | "" => None
      | String c r =>
          if Ascii.eqb c "{" then
            match skip_space r with
            | String d r' =>
                if Ascii.eqb d "}" then Some (PyDict ∅, r')
                else read_members n (String d r') ∅
            | "" => None
            end
          else if Ascii.eqb c "[" then
            match skip_space r with
            | String d r' =>
                if Ascii.eqb d "]" then Some (PyList [], r')
                else read_elements n (String d r') []
            | "" => None
            end
          else if Ascii.eqb c quote then
            match read_string (String.length r) r with
            | Some (t, r') => Some (PyStr t, r')
            | None => None
            end
          else
            match strip_prefix "true" (String c r) with
            | Some r' => Some (PyBool true, r')
            | None =>
                match strip_prefix "false" (String c r) with
                | Some r' => Some (PyBool false, r')
                | None =>
                    match strip_prefix "null" (String c r) with
                    | Some r' => Some (PyNone, r')
                    | None => read_number (String c r)
                    end
                end
            end
      end
  end
with read_elements (fuel : nat) (s : string) (seen : list PyVal)
    : option (PyVal * string) :=
  match fuel with
  | O => None
  | S n =>
      match read_value n s with
      | None => None
      | Some (v, r) =>
          match skip_space r with
          | String d r' =>
              if Ascii.eqb d "," then read_elements n r' (seen ++ [v])
              else if Ascii.eqb d "]" then Some (PyList (seen ++ [v]), r')
              else None
          | "" => None
          end
      end
  end
with read_members (fuel : nat) (s : string) (seen : gmap string PyVal)
    : option (PyVal * string) :=
  match fuel with
  | O => None
  | S n =>
      match skip_space s with
      | "" => None
      | String q r =>
          if Ascii.eqb q quote then
            match read_string (String.length r) r with
            | None => None
            | Some (k, r1) =>
                match skip_space r1 with
                | "" => None
                | String c r2 =>
                    if Ascii.eqb c ":" then
                      match read_value n r2 with
                      | None => None
                      | Some (v, r3) =>
                          match skip_space r3 with
                          | String d r4 =>
                              if Ascii.eqb d "," then read_members n r4 (<[k:=v]> seen)
                              else if Ascii.eqb d "}" then Some (PyDict (<[k:=v]> seen), r4)
                              else None
                          | "" => None
                          end
                      end
                    else None
                end
            end
          else None
      end
  end.

(** The value of a whole text: one value, with nothing but white space
    around it.  Twice the length of the text is fuel enough, since between
    two calls at least one character is read. *)
Definition read_json (text : string) : option PyVal :=
  match read_value (2 * String.length text + 2) text with
  | Some (v, r) =>
      match skip_space r with
      | "" => Some v
      | _ => None
      end
  | None => None
  end.

(** ** Which streams a report holds *)

(** The last import or delete among the commands of a run, with the
    commands that came before it. *)
Fixpoint last_mutating_from (before cmds : list (list string))
    : option (list (list string) * list string) :=
  match cmds with
  | [] => None
  | c :: rest =>
      match last_mutating_from (before ++ [c]) rest with
      | Some found => Some found
      | None => if mutating c then Some (before, c) else None
      end
  end.

Definition last_mutating (cmds : list (list string))
    : option (list (list string) * list string) :=
  last_mutating_from [] cmds.

(** The text [main] itself assigns to [out] in a run without import and
    delete, given what the probe before the state blocks found; [out] keeps
    its initial empty string where no branch assigns it. *)
Definition own_message (py : PyRuntime) (m : AnsibleModule) (before : Probe) : string :=
  if String.eqb (params_state m) "present" then
    match before with
    | Present v =>
        match getitem v "name" with
        | inr name =>
            "Image " +:+ params_uuid m +:+ " (" +:+ str_of py name +:+
            ") is already installed, skipping."
        | inl _ => ""
        end
    | _ => "have to download image"
    end
  else if String.eqb (params_state m) "absent" then
    match before with
    | Present _ => ""
    | _ =>
        "Image " +:+ quoted (params_uuid m) +:+ " was not found on zpool " +:+
        quoted (params_zpool m) +:+ "."
    end
  else "".

(** ** Variations of a request and further hosts *)

(** [m] with another update flag. *)
Definition set_update (m : AnsibleModule) (b : bool) : AnsibleModule :=
  {| params_uuid := params_uuid m;
     params_state := params_state m;
     params_zpool := params_zpool m;
     params_update := b;
     check_mode := check_mode m;
     get_bin_path := get_bin_path m;
     run_command := run_command m |}.

(** [m] on a host that lacks the executable [name]. *)
Definition without_executable (name : string) (m : AnsibleModule) : AnsibleModule :=
  {| params_uuid := params_uuid m;
     params_state := params_state m;
     params_zpool := params_zpool m;
     params_update := params_update m;
     check_mode := check_mode m;
     get_bin_path := fun n => if String.eqb n name then None else get_bin_path m n;
     run_command := run_command m |}.

(** A host that answers by the operation alone, from a table; an operation
    that is not in the table exits 0 without output. *)
Definition scripted_host (answers : list (string * (Z * string * string)))
    (history : list (list string)) (cmd : list string) : Z * string * string :=
  match find (fun a => String.eqb (fst a) (verb cmd)) answers with
  | Some a => snd a
  | None => (0%Z, "", "")
  end.

Definition scripted_module (uuid state zpool : string) (update check : bool)
    (answers : list (string * (Z * string * string))) : AnsibleModule :=
  {| params_uuid := uuid;
     params_state := state;
     params_zpool := zpool;
     params_update := update;
     check_mode := check;
     get_bin_path := fun name => Some ("/usr/sbin/" +:+ name);
     run_command := scripted_host answers |}.

(** A runtime for which the document of the image has a manifest without a
    name. *)
Definition nameless_py : PyRuntime :=
  {| json_loads := fun text =>
       if String.eqb text sample_info
       then Some (PyDict {[ "manifest" := PyDict ∅ ]})
       else None;
     repr := fun _ => "?" |}.

(** Normal mode, state absent, image in the store, the delete works. *)
Definition run_delete : AnsibleModule :=
  sample_module sample_uuid "absent" "zones" false false ["zones"] true 0.

(** The image is there and the delete exits 2. *)
Definition run_delete_fails : AnsibleModule :=
  scripted_module sample_uuid "absent" "zones" false false
    [("info", (0%Z, sample_info, "")); ("delete", (2%Z, "", "imgadm delete: error"))].

(** Check mode, state present, image in the store. *)
Definition run_check_installed : AnsibleModule :=
  sample_module sample_uuid "present" "zones" false true ["zones"] true 0.

(** The info query exits 0 with an answer that is no JSON document. *)
Definition run_garbled_info : AnsibleModule :=
  scripted_module sample_uuid "absent" "zones" false false
    [("info", (0%Z, "garbage", ""))].

(** A docker name in place of the identifier. *)
Definition run_docker : AnsibleModule :=
  sample_module "busybox:latest" "present" "zones" false false ["zones"] false 0.


(** An info, import or delete of the requested image through [bin]. *)
Definition image_command (m : AnsibleModule) (bin : string) (cmd : list string) : Prop :=
  cmd = imgadm_cmd bin "info" (params_zpool m) (params_uuid m) \/
  cmd = imgadm_cmd bin "import" (params_zpool m) (params_uuid m) \/
  cmd = imgadm_cmd bin "delete" (params_zpool m) (params_uuid m).

(** The manifest a report gets from the closing probe. *)
Definition probed_manifest (p : Probe) : option PyVal :=
  match p with
  | Present v => Some v
  | _ => None
  end.

(** * Properties *)

(** ** The regular expression and the canonical form *)

Example canonical_sample : canonical_uuid "d183f500-9a96-11e6-8976-ff3967dc023a" = true.
Proof. reflexivity. Qed.

Example regex_sample : re_match UUID_REGEX "d183f500-9a96-11e6-8976-ff3967dc023a" = true.
Proof. reflexivity. Qed.

Example regex_upper : re_match UUID_REGEX "D183F500-9a96-11e6-8976-ff3967dc023a" = false.
Proof. reflexivity. Qed.

Example regex_docker : re_match UUID_REGEX "busybox:latest" = false.
Proof. reflexivity. Qed.

Lemma in_ranges_hex c :
  in_ranges [("a"%char, "f"%char); ("0"%char, "9"%char)] c = is_lower_hex c.
Proof.
  unfold in_ranges, is_lower_hex. simpl.
  rewrite orb_false_r. apply orb_comm.
Qed.

(** One character of the subject: it is there and passes its test, or both
    sides are [false]. *)
Ltac uuid_char s :=
  let a := fresh "a" in
  destruct s as [|a s];
  [ reflexivity
  | cbn -[in_ranges is_lower_hex at_end Ascii.eqb];
    rewrite ?in_ranges_hex;
    match goal with
    | |- context [is_lower_hex a] => generalize (is_lower_hex a)
    | |- context [Ascii.eqb a ?c] => generalize (Ascii.eqb a c)
    end;
    intros [|]; [ cbn -[in_ranges is_lower_hex at_end Ascii.eqb] | reflexivity ] ].

(** What [re.match] accepts: the canonical identifiers, and the canonical
    identifiers followed by one newline. *)
Lemma re_match_uuid s :
  re_match UUID_REGEX s = canonical_uuid s || canonical_uuid_newline s.
Proof.
  unfold re_match, canonical_uuid, canonical_uuid_newline, UUID_REGEX, hexset.
  cbn -[in_ranges is_lower_hex at_end Ascii.eqb matches].
  do 36 uuid_char s.
  destruct s as [|c [|? ?]]; cbn; try reflexivity;
    destruct (Ascii.eqb c newline); reflexivity.
Qed.


(** ** Walking the paths of a run

    [unfold_run] unfolds the run down to the answers of the host and of the
    runtime; [walk] then splits on each answer in turn, innermost first, and
    drops a path as soon as the premises of the goal rule it out. *)

Lemma getattr_import_image h :
  getattr "import_image" h = (inr (ClassFunction IMAGE.import_image), h).
Proof. reflexivity. Qed.

Lemma getattr_delete h :
  getattr "delete" h = (inr (ClassFunction IMAGE.delete), h).
Proof. reflexivity. Qed.

(** [image.update] is the flag stored by [__init__], not the method. *)
Lemma getattr_update h :
  getattr "update" h = (inr (InstanceValue (PyBool (update (image h)))), h).
Proof. reflexivity. Qed.

Ltac unfold_run :=
  cbv beta iota zeta delta
    [main main_body finish state_present state_absent bind ret when stop
     fail_json exit_json raise self store_manifest subscript loads bin_path run
     IMAGE.init IMAGE.is_local IMAGE.zpool_exists IMAGE.has_valid_uuid
     IMAGE.import_image IMAGE.delete IMAGE.update call is_true truthy
     image ran module uuid state zpool update manifest set_manifest
     result out err app fst snd outcome commands negb probe exit_status
     is_present andb orb].

Ltac split_innermost :=
  match goal with
  | |- context [match ?x with _ => _ end] =>
      lazymatch x with
      | context [match _ with _ => _ end] => fail
      | _ => destruct x eqn:?
      end
  end.

(** An answer that a hypothesis already fixes is not split on. *)
Ltac use_known :=
  match goal with
  | H : ?x = _ |- context [match ?x with _ => _ end] => rewrite H
  end.

Ltac walk :=
  repeat (unfold_run;
          rewrite ?getattr_import_image, ?getattr_delete, ?getattr_update;
          unfold_run;
          try first [use_known | split_innermost];
          try solve [intros; congruence]).

Lemma eqb_present_absent s :
  String.eqb s "present" = true -> String.eqb s "absent" = true -> False.
Proof.
  intros Hp Ha. apply String.eqb_eq in Hp. apply String.eqb_eq in Ha. congruence.
Qed.

(** ** Pool check *)

(** C4: with an identifier the validation accepts, a pool query that exits
    non-zero makes the run fail with the pool-not-found message, whatever the
    desired state, and the pool query is the only command the run issues. *)
Theorem pool_query_failure_is_fatal py m zp :
  re_match UUID_REGEX (params_uuid m) = true ->
  get_bin_path m "zpool" = Some zp ->
  exit_status (run_command m [] (zpool_cmd zp (params_zpool m))) <> 0%Z ->
  outcome py m =
    inl (FailJson (failure (message PoolNotFound) (params_uuid m) (params_zpool m))) /\
  fails_with PoolNotFound (outcome py m) /\
  commands py m = [zpool_cmd zp (params_zpool m)] /\
  Forall (fun cmd => verb cmd = "list") (commands py m).
Proof.
  intros Hv Hzp Hrc. apply Z.eqb_neq in Hrc.
  assert (E : outcome py m =
                inl (FailJson (failure (message PoolNotFound) (params_uuid m) (params_zpool m))) /\
              commands py m = [zpool_cmd zp (params_zpool m)]).
  { revert Hrc. walk. all: intros _; split; reflexivity. }
  destruct E as [Eo Ec]. rewrite Eo, Ec. repeat split.
  - eexists. split; [reflexivity|]. reflexivity.
  - repeat constructor.
Qed.

Lemma pool_query_failure_is_fatal_witness :
  fails_with PoolNotFound (outcome sample_py run_no_pool) /\
  commands sample_py run_no_pool = [["/usr/sbin/zpool"; "list"; "tank"]].
Proof.
  destruct (pool_query_failure_is_fatal sample_py run_no_pool "/usr/sbin/zpool")
    as (_ & Hf & Hc & _).
  - reflexivity.
  - reflexivity.
  - vm_compute. discriminate.
  - split; [exact Hf | exact Hc].
Defined.

(** ** What a failure carries *)

Lemma failure_msg msg u z : failure msg u z !! "msg" = Some (PyStr msg).
Proof. reflexivity. Qed.

Lemma failure_uuid msg u z : failure msg u z !! "uuid" = Some (PyStr u).
Proof. reflexivity. Qed.

Lemma failure_zpool msg u z : failure msg u z !! "zpool" = Some (PyStr z).
Proof. reflexivity. Qed.

Lemma failure_no_diagnostics msg u z :
  failure msg u z !! "rc" = None /\ failure msg u z !! "stdout" = None /\
  failure msg u z !! "stderr" = None.
Proof. repeat split; reflexivity. Qed.

Lemma command_failure_msg msg u z rc o e :
  command_failure msg u z rc o e !! "msg" = Some (PyStr msg).
Proof. reflexivity. Qed.

Lemma command_failure_uuid msg u z rc o e :
  command_failure msg u z rc o e !! "uuid" = Some (PyStr u).
Proof. reflexivity. Qed.

Lemma command_failure_zpool msg u z rc o e :
  command_failure msg u z rc o e !! "zpool" = Some (PyStr z).
Proof. reflexivity. Qed.

Lemma command_failure_diagnostics msg u z rc o e :
  command_failure msg u z rc o e !! "rc" = Some (PyInt rc) /\
  command_failure msg u z rc o e !! "stdout" = Some (PyStr o) /\
  command_failure msg u z rc o e !! "stderr" = Some (PyStr e).
Proof. repeat split; reflexivity. Qed.

(** ** Identifier validation *)

Lemma fits_app t1 t2 s1 s2 :
  fits t1 s1 = true -> fits t2 s2 = true -> fits (t1 ++ t2) (s1 +:+ s2) = true.
Proof.
  revert s1. induction t1 as [|p t1 IH]; intros [|c s1]; simpl; try discriminate.
  - intros _ H. exact H.
  - intros H1 H2. apply andb_true_iff in H1 as [Hc H1].
    rewrite Hc. simpl. apply IH; assumption.
Qed.

Lemma canonical_then_newline u :
  canonical_uuid u = true -> canonical_uuid_newline (u +:+ String newline "") = true.
Proof.
  intros H. unfold canonical_uuid_newline. apply fits_app; [exact H|reflexivity].
Qed.

(** An identifier the validation refuses ends the run at once: the failure
    is the invalid-input one and no command has been issued. *)
Lemma refused_uuid_fails_first py m :
  re_match UUID_REGEX (params_uuid m) = false ->
  outcome py m =
    inl (FailJson (failure (message InvalidInput) (params_uuid m) (params_zpool m))) /\
  commands py m = [].
Proof.
  intros Hv. walk. split; reflexivity.
Qed.

(** An identifier the validation accepts never ends in the invalid-input
    failure. *)
Lemma accepted_uuid_passes py m kw :
  re_match UUID_REGEX (params_uuid m) = true ->
  outcome py m = inl (FailJson kw) ->
  kw !! "msg" <> Some (PyStr (message InvalidInput)).
Proof.
  intros Hv. walk.
  all: intros [= <-];
    rewrite ?failure_msg, ?command_failure_msg; discriminate.
Qed.

(** Once the identifier is accepted and [zpool] is found, the pool query is
    the first command of the run. *)
Lemma accepted_uuid_queries_pool py m zp :
  re_match UUID_REGEX (params_uuid m) = true ->
  get_bin_path m "zpool" = Some zp ->
  exists rest, commands py m = zpool_cmd zp (params_zpool m) :: rest.
Proof.
  intros Hv Hzp. walk.
  all: eexists; reflexivity.
Qed.

(** C3, at the input where the code departs from it: the sample identifier
    followed by a newline is not canonical, yet the run is not refused; it
    queries the pool, imports and probes with that identifier, and exits
    normally. *)
Theorem newline_terminated_uuid_is_not_refused :
  canonical_uuid (params_uuid run_newline) = false /\
  IMAGE.has_valid_uuid {| image := IMAGE.init run_newline; ran := [] |} =
    (inr true, {| image := IMAGE.init run_newline; ran := [] |}) /\
  (exists r, outcome sample_py run_newline = inl (ExitJson r)) /\
  commands sample_py run_newline =
    [["/usr/sbin/zpool"; "list"; "zones"];
     ["/usr/sbin/imgadm"; "import"; "-P"; "zones"; params_uuid run_newline];
     ["/usr/sbin/imgadm"; "info"; "-P"; "zones"; params_uuid run_newline]].
Proof.
  split; [reflexivity|]. split; [reflexivity|]. split.
  - eexists. vm_compute. reflexivity.
  - vm_compute. reflexivity.
Qed.

(** C10: a canonical identifier followed by one newline is accepted by the
    validation; the run does not fail with the invalid-input message and,
    when [zpool] is found, goes on to query the pool. *)
Theorem trailing_newline_accepted py m u :
  canonical_uuid u = true ->
  params_uuid m = u +:+ String newline "" ->
  re_match UUID_REGEX (params_uuid m) = true /\
  ~ fails_with InvalidInput (outcome py m) /\
  (forall zp, get_bin_path m "zpool" = Some zp ->
     exists rest, commands py m = zpool_cmd zp (params_zpool m) :: rest).
Proof.
  intros Hu Hm.
  assert (Hv : re_match UUID_REGEX (params_uuid m) = true).
  { rewrite Hm, re_match_uuid, (canonical_then_newline u Hu). apply orb_true_r. }
  split; [exact Hv|]. split.
  - intros (kw & Ho & Hmsg). exact (accepted_uuid_passes py m kw Hv Ho Hmsg).
  - intros zp Hzp. exact (accepted_uuid_queries_pool py m zp Hv Hzp).
Qed.

Lemma trailing_newline_accepted_witness :
  re_match UUID_REGEX (params_uuid run_newline) = true /\
  ~ fails_with InvalidInput (outcome sample_py run_newline).
Proof.
  destruct (trailing_newline_accepted sample_py run_newline sample_uuid) as (Hv & Hf & _).
  - reflexivity.
  - reflexivity.
  - split; [exact Hv | exact Hf].
Defined.

Lemma state_is_present s :
  s = "present" -> String.eqb s "present" = true /\ String.eqb s "absent" = false.
Proof. intros ->. split; reflexivity. Qed.

Lemma state_is_absent s :
  s = "absent" -> String.eqb s "present" = false /\ String.eqb s "absent" = true.
Proof. intros ->. split; reflexivity. Qed.

(** Closes a path that has reached its end: the report or the failure is
    explicit, and what is asked of it is read off. *)
Ltac read_off :=
  intros;
  repeat match goal with
         | |- exists _, _ => eexists
         | |- _ /\ _ => split
         end;
  try reflexivity.

(** ** The update flag *)

(** With the update flag set, a normal-mode import that succeeded is followed
    by the call of [image.update], which is the stored flag: the run stops on
    the [TypeError], and the pool query and the import are all it has run. *)
Lemma update_flag_is_called py m zp ip :
  re_match UUID_REGEX (params_uuid m) = true ->
  params_state m = "present" ->
  check_mode m = false ->
  params_update m = true ->
  get_bin_path m "zpool" = Some zp ->
  exit_status (run_command m [] (zpool_cmd zp (params_zpool m))) = 0%Z ->
  get_bin_path m "imgadm" = Some ip ->
  exit_status (run_command m [zpool_cmd zp (params_zpool m)]
                 (imgadm_cmd ip "import" (params_zpool m) (params_uuid m))) = 0%Z ->
  outcome py m = inl (Raised (TypeError "'bool' object is not callable")) /\
  commands py m =
    [zpool_cmd zp (params_zpool m);
     imgadm_cmd ip "import" (params_zpool m) (params_uuid m)].
Proof.
  intros Hv Hs Hc Hu Hzp Hpool Hip Himp.
  apply state_is_present in Hs as [Hp Ha].
  apply Z.eqb_eq in Hpool, Himp. revert Hpool Himp.
  walk. read_off.
Qed.

(** No run ever issues [imgadm update]. *)
Lemma update_command_never_runs py m :
  Forall (fun cmd => verb cmd <> "update") (commands py m).
Proof.
  unfold_run. walk.
  all: repeat constructor; discriminate.
Qed.

(** C1, at an input where the code departs from it: the identifier is
    valid, the pool exists, the import exits 0 and the update flag is set;
    the run ends in a [TypeError] instead of updating, the update command is
    not among the commands it has issued, and so no failure of an update can
    be reported either. *)
Theorem update_flag_raises_instead_of_updating :
  params_update run_import_update = true /\
  exit_status (run_command run_import_update [["/usr/sbin/zpool"; "list"; "zones"]]
                 ["/usr/sbin/imgadm"; "import"; "-P"; "zones"; sample_uuid]) = 0%Z /\
  outcome sample_py run_import_update =
    inl (Raised (TypeError "'bool' object is not callable")) /\
  commands sample_py run_import_update =
    [["/usr/sbin/zpool"; "list"; "zones"];
     ["/usr/sbin/imgadm"; "import"; "-P"; "zones"; sample_uuid]] /\
  Forall (fun cmd => verb cmd <> "update") (commands sample_py run_import_update).
Proof.
  repeat split; try (vm_compute; reflexivity).
  apply update_command_never_runs.
Qed.

(** ** The changed flag *)

(** C2, at the scenario of the specification: the image is absent before the
    run, the import exits 0 and the closing probe finds the image, and the
    report carries the identifier, the pool and the manifest of that probe;
    but its [changed] is [False]. *)
Theorem import_of_absent_image_reports_unchanged :
  probe sample_py run_import [["/usr/sbin/zpool"; "list"; "zones"]] = Absent /\
  commands sample_py run_import =
    [["/usr/sbin/zpool"; "list"; "zones"];
     ["/usr/sbin/imgadm"; "import"; "-P"; "zones"; sample_uuid];
     ["/usr/sbin/imgadm"; "info"; "-P"; "zones"; sample_uuid]] /\
  outcome sample_py run_import =
    inl (ExitJson
           {[ "changed" := PyBool false;
              "stdout" := PyStr "Imported image";
              "stderr" := PyStr "";
              "uuid" := PyStr sample_uuid;
              "state" := PyStr "present";
              "zpool" := PyStr "zones";
              "manifest" := sample_manifest ]}).
Proof.
  repeat split; vm_compute; reflexivity.
Qed.

(** C9: in a run that exits normally the pool query has been made, and
    [changed] is [True] exactly when the run is in check mode with state
    present and the probe after the pool query found no image, or the state
    is absent and that probe found the image; otherwise it is [False]. *)
Theorem changed_flag py m r :
  outcome py m = inl (ExitJson r) ->
  exists zp,
    get_bin_path m "zpool" = Some zp /\
    let before := probe py m [zpool_cmd zp (params_zpool m)] in
    r !! "changed" =
      Some (PyBool
              (check_mode m && String.eqb (params_state m) "present" &&
                 negb (is_present before)
               || String.eqb (params_state m) "absent" && is_present before)).
Proof.
  intros Ho. destruct (get_bin_path m "zpool") as [zp|] eqn:Hzp.
  - exists zp. split; [reflexivity|]. revert Ho. walk.
    all: try (exfalso; eapply eqb_present_absent; eassumption).
    all: intros [= <-]; reflexivity.
  - exfalso. revert Ho. walk.
Qed.

Lemma changed_flag_witness :
  exists r,
    outcome sample_py run_check_present = inl (ExitJson r) /\
    r !! "changed" = Some (PyBool true).
Proof.
  eexists. split.
  - vm_compute. reflexivity.
  - destruct (changed_flag sample_py run_check_present _ eq_refl) as (zp & Hzp & Hc).
    exact Hc.
Defined.

(** ** State absent, image absent *)

(** C8: with state absent and a probe that finds no image, the run exits
    normally with [changed] false and a message that names the identifier
    and the pool; nothing but the pool query and the two probes is run. *)
Theorem absent_image_is_reported_unchanged py m zp ip :
  re_match UUID_REGEX (params_uuid m) = true ->
  params_state m = "absent" ->
  get_bin_path m "zpool" = Some zp ->
  exit_status (run_command m [] (zpool_cmd zp (params_zpool m))) = 0%Z ->
  get_bin_path m "imgadm" = Some ip ->
  let info := imgadm_cmd ip "info" (params_zpool m) (params_uuid m) in
  probe py m [zpool_cmd zp (params_zpool m)] = Absent ->
  probe py m [zpool_cmd zp (params_zpool m); info] <> Unusable ->
  exists r,
    outcome py m = inl (ExitJson r) /\
    r !! "changed" = Some (PyBool false) /\
    r !! "stdout" =
      Some (PyStr ("Image " +:+ quoted (params_uuid m) +:+ " was not found on zpool " +:+
                   quoted (params_zpool m) +:+ ".")) /\
    commands py m = [zpool_cmd zp (params_zpool m); info; info].
Proof.
  intros Hv Hs Hzp Hpool Hip info.
  apply state_is_absent in Hs as [Hp Ha]. apply Z.eqb_eq in Hpool.
  subst info. revert Hpool. walk.
  all: read_off.
Qed.

Lemma absent_image_is_reported_unchanged_witness :
  exists r,
    outcome sample_py run_absent = inl (ExitJson r) /\
    r !! "changed" = Some (PyBool false).
Proof.
  destruct (absent_image_is_reported_unchanged sample_py run_absent
              "/usr/sbin/zpool" "/usr/sbin/imgadm")
    as (r & Ho & Hc & _).
  - reflexivity.
  - reflexivity.
  - reflexivity.
  - reflexivity.
  - reflexivity.
  - reflexivity.
  - vm_compute. discriminate.
  - exists r. split; [exact Ho | exact Hc].
Defined.

(** ** Check mode *)

(** In check mode every command of the run, however the run ends, is a pool
    query or an info query. *)
Lemma check_mode_commands py m :
  check_mode m = true ->
  Forall (fun cmd => mutating cmd = false) (commands py m).
Proof.
  intros Hc. walk.
  all: repeat constructor.
Qed.

(** Check mode, state present, no image: the report announces a change and
    carries the placeholder that [json.loads] makes of [faked_text]. *)
Lemma check_mode_present py m zp ip fm :
  check_mode m = true ->
  re_match UUID_REGEX (params_uuid m) = true ->
  params_state m = "present" ->
  get_bin_path m "zpool" = Some zp ->
  exit_status (run_command m [] (zpool_cmd zp (params_zpool m))) = 0%Z ->
  get_bin_path m "imgadm" = Some ip ->
  json_loads py faked_text = Some fm ->
  probe py m [zpool_cmd zp (params_zpool m)] = Absent ->
  probe py m [zpool_cmd zp (params_zpool m);
              imgadm_cmd ip "info" (params_zpool m) (params_uuid m)] = Absent ->
  exists r,
    outcome py m = inl (ExitJson r) /\
    r !! "changed" = Some (PyBool true) /\
    r !! "manifest" = Some fm /\
    commands py m =
      [zpool_cmd zp (params_zpool m);
       imgadm_cmd ip "info" (params_zpool m) (params_uuid m);
       imgadm_cmd ip "info" (params_zpool m) (params_uuid m)].
Proof.
  intros Hc Hv Hs Hzp Hpool Hip Hfm.
  apply state_is_present in Hs as [Hp Ha]. apply Z.eqb_eq in Hpool.
  revert Hpool. walk.
  all: read_off.
Qed.

(** Check mode, state absent, image found: the report announces a change;
    the commands of the run are the pool query and two probes. *)
Lemma check_mode_absent py m zp ip v :
  check_mode m = true ->
  re_match UUID_REGEX (params_uuid m) = true ->
  params_state m = "absent" ->
  get_bin_path m "zpool" = Some zp ->
  exit_status (run_command m [] (zpool_cmd zp (params_zpool m))) = 0%Z ->
  get_bin_path m "imgadm" = Some ip ->
  probe py m [zpool_cmd zp (params_zpool m)] = Present v ->
  probe py m [zpool_cmd zp (params_zpool m);
              imgadm_cmd ip "info" (params_zpool m) (params_uuid m)] <> Unusable ->
  exists r,
    outcome py m = inl (ExitJson r) /\
    r !! "changed" = Some (PyBool true) /\
    commands py m =
      [zpool_cmd zp (params_zpool m);
       imgadm_cmd ip "info" (params_zpool m) (params_uuid m);
       imgadm_cmd ip "info" (params_zpool m) (params_uuid m)].
Proof.
  intros Hc Hv Hs Hzp Hpool Hip.
  apply state_is_absent in Hs as [Hp Ha]. apply Z.eqb_eq in Hpool.
  revert Hpool. walk.
  all: read_off.
Qed.

(** The text of line 224, read as JSON, is the placeholder: an object whose
    [faked] is the string [True] and whose [reason] is [check_mode]. *)
Lemma faked_text_reads_as_placeholder : read_json faked_text = Some faked_manifest.
Proof. vm_compute. reflexivity. Qed.

(** C6: in check mode no run issues an import, an update or a delete.  With
    state present and no image, the report has [changed] true and, as its
    manifest, what the text of line 224 denotes as JSON, which [json.loads]
    is taken to return for it: an object that marks itself as faked for
    check mode.  With state absent and the image found, the report has
    [changed] true and the delete command is not run. *)
Theorem check_mode_never_mutates py m :
  check_mode m = true ->
  Forall (fun cmd => mutating cmd = false) (commands py m) /\
  (forall zp ip,
     re_match UUID_REGEX (params_uuid m) = true ->
     get_bin_path m "zpool" = Some zp ->
     exit_status (run_command m [] (zpool_cmd zp (params_zpool m))) = 0%Z ->
     get_bin_path m "imgadm" = Some ip ->
     let info := imgadm_cmd ip "info" (params_zpool m) (params_uuid m) in
     (params_state m = "present" ->
      json_loads py faked_text = read_json faked_text ->
      probe py m [zpool_cmd zp (params_zpool m)] = Absent ->
      probe py m [zpool_cmd zp (params_zpool m); info] = Absent ->
      exists r,
        outcome py m = inl (ExitJson r) /\
        r !! "changed" = Some (PyBool true) /\
        r !! "manifest" = Some faked_manifest /\
        getitem faked_manifest "faked" = inr (PyStr "True") /\
        getitem faked_manifest "reason" = inr (PyStr "check_mode") /\
        commands py m = [zpool_cmd zp (params_zpool m); info; info]) /\
     (params_state m = "absent" ->
      forall v,
      probe py m [zpool_cmd zp (params_zpool m)] = Present v ->
      probe py m [zpool_cmd zp (params_zpool m); info] <> Unusable ->
      exists r,
        outcome py m = inl (ExitJson r) /\
        r !! "changed" = Some (PyBool true) /\
        commands py m = [zpool_cmd zp (params_zpool m); info; info] /\
        Forall (fun cmd => verb cmd <> "delete") (commands py m))).
Proof.
  intros Hc. split; [exact (check_mode_commands py m Hc)|].
  intros zp ip Hv Hzp Hpool Hip info. split.
  - intros Hs Hfm H1 H2. rewrite faked_text_reads_as_placeholder in Hfm.
    destruct (check_mode_present py m zp ip faked_manifest Hc Hv Hs Hzp Hpool Hip Hfm H1 H2)
      as (r & Ho & Hch & Hm & Hcmds).
    exists r. repeat split; assumption || reflexivity.
  - intros Hs v H1 H2.
    destruct (check_mode_absent py m zp ip v Hc Hv Hs Hzp Hpool Hip H1 H2)
      as (r & Ho & Hch & Hcmds).
    exists r. repeat split; try assumption.
    rewrite Hcmds. repeat constructor; discriminate.
Qed.

Lemma check_mode_never_mutates_witness :
  (exists r,
     outcome sample_py run_check_present = inl (ExitJson r) /\
     r !! "changed" = Some (PyBool true) /\
     r !! "manifest" = Some faked_manifest) /\
  (exists r,
     outcome sample_py run_check_absent = inl (ExitJson r) /\
     r !! "changed" = Some (PyBool true) /\
     Forall (fun cmd => verb cmd <> "delete") (commands sample_py run_check_absent)).
Proof.
  split.
  - destruct (check_mode_never_mutates sample_py run_check_present eq_refl) as [_ H].
    destruct (H "/usr/sbin/zpool" "/usr/sbin/imgadm" eq_refl eq_refl eq_refl eq_refl)
      as [Hpresent _].
    destruct (Hpresent eq_refl eq_refl eq_refl eq_refl) as (r & Ho & Hch & Hm & _).
    exists r. repeat split; assumption.
  - destruct (check_mode_never_mutates sample_py run_check_absent eq_refl) as [_ H].
    destruct (H "/usr/sbin/zpool" "/usr/sbin/imgadm" eq_refl eq_refl eq_refl eq_refl)
      as [_ Habsent].
    destruct (Habsent eq_refl sample_manifest eq_refl) as (r & Ho & Hch & _ & Hd).
    + vm_compute. discriminate.
    + exists r. repeat split; assumption.
Defined.

(** ** Failures *)

(** C5 does not hold for the pool query: on a host without the pool the
    query exits non-zero and the run fails with the pool-not-found message,
    but the failure carries neither the exit code nor an output stream. *)
Lemma pool_failure_lacks_diagnostics :
  exit_status (run_command run_no_pool [] ["/usr/sbin/zpool"; "list"; "tank"]) <> 0%Z /\
  exists kw,
    outcome sample_py run_no_pool = inl (FailJson kw) /\
    kw !! "msg" = Some (PyStr (message PoolNotFound)) /\
    ~ carries_diagnostics kw.
Proof.
  split; [vm_compute; discriminate|].
  exists (failure (message PoolNotFound) sample_uuid "tank").
  split; [vm_compute; reflexivity|]. split; [reflexivity|].
  intros ([x Hx] & _). vm_compute in Hx. discriminate.
Qed.

Ltac split_last_command :=
  match goal with
  | |- exists h c, ?l = @?R h c /\ @?P h c =>
      let h' := eval cbv [removelast] in (removelast l) in
      let c' := eval cbv [last] in (last l []) in
      exists h', c'
  end.

(** C5, amended: every failure carries a message, the identifier and the
    pool.  The failure of an import, update or delete command carries in
    addition the exit code, non-zero, and the two streams, as the host
    answered that command, the last one of the run.  The failures of the
    validation and of the pool query carry none of the three. *)
Theorem failure_contents py m kw :
  outcome py m = inl (FailJson kw) ->
  exists k,
    kw !! "msg" = Some (PyStr (message k)) /\
    kw !! "uuid" = Some (PyStr (params_uuid m)) /\
    kw !! "zpool" = Some (PyStr (params_zpool m)) /\
    match k with
    | InvalidInput | PoolNotFound =>
        kw !! "rc" = None /\ kw !! "stdout" = None /\ kw !! "stderr" = None
    | ImportFailed | UpdateFailed | DeleteFailed =>
        exists (history : list (list string)) (cmd : list string),
          commands py m = (history ++ [cmd])%list /\
          exists rc o e,
            run_command m history cmd = (rc, o, e) /\
            rc <> 0%Z /\
            kw !! "rc" = Some (PyInt rc) /\
            kw !! "stdout" = Some (PyStr o) /\
            kw !! "stderr" = Some (PyStr e)
    end.
Proof.
  walk.
  all: intros [= <-].
  all: first
    [ exists InvalidInput; repeat split; reflexivity
    | exists PoolNotFound; repeat split; reflexivity
    | exists ImportFailed; (do 3 (split; [reflexivity|]));
      cbv beta iota; split_last_command; split; [reflexivity|];
      do 3 eexists; split; [eassumption|];
      split; [apply Z.eqb_neq; assumption|]; repeat split; reflexivity
    | exists DeleteFailed; (do 3 (split; [reflexivity|]));
      cbv beta iota; split_last_command; split; [reflexivity|];
      do 3 eexists; split; [eassumption|];
      split; [apply Z.eqb_neq; assumption|]; repeat split; reflexivity ].
Qed.

Lemma failure_contents_witness :
  exists kw,
    outcome sample_py run_import_fails = inl (FailJson kw) /\
    kw !! "rc" = Some (PyInt 1).
Proof.
  exists (command_failure (message ImportFailed) sample_uuid "zones" 1 ""
            "imgadm import: error").
  split; [vm_compute; reflexivity|].
  destruct (failure_contents sample_py run_import_fails
              (command_failure (message ImportFailed) sample_uuid "zones" 1 ""
                 "imgadm import: error"))
    as (k & Hmsg & _).
  - vm_compute. reflexivity.
  - reflexivity.
Defined.

(** ** The report *)

Ltac split_history :=
  match goal with
  | |- exists h b, ?l = @?R h b /\ @?P h b =>
      let h' := eval cbv [removelast] in (removelast l) in
      exists h'
  end.

(** The fields of a report other than the content of the two streams. *)
Lemma report_fields py m r :
  outcome py m = inl (ExitJson r) ->
  (exists o e,
     r !! "stdout" = Some (PyStr o) /\
     r !! "stderr" = Some (PyStr e) /\
     (check_mode m = true -> e = "") /\
     (check_mode m = true -> params_state m = "absent" ->
      r !! "changed" = Some (PyBool true) -> o = "")) /\
  r !! "uuid" = Some (PyStr (params_uuid m)) /\
  r !! "state" = Some (PyStr (params_state m)) /\
  r !! "zpool" = Some (PyStr (params_zpool m)) /\
  exists (history : list (list string)) (bin : string),
    commands py m =
      (history ++ [imgadm_cmd bin "info" (params_zpool m) (params_uuid m)])%list /\
    match probe py m history with
    | Present v => r !! "manifest" = Some v
    | Absent =>
        r !! "manifest" = None \/
        (check_mode m = true /\ params_state m = "present" /\
         r !! "changed" = Some (PyBool true) /\
         r !! "manifest" = json_loads py faked_text)
    | Unusable => False
    end.
Proof.
  walk.
  all: try (exfalso; eapply eqb_present_absent; eassumption).
  all: intros [= <-].
  all: split;
    [ do 2 eexists; (do 2 (split; [reflexivity|])); split;
      [ intros; congruence || reflexivity
      | intros Hc Hs Hch; try congruence;
        try (apply state_is_absent in Hs as [? ?]; congruence);
        try (vm_compute in Hch; discriminate);
        reflexivity ]
    | ].
  all: do 3 (split; [reflexivity|]).
  all: split_history; eexists; split; [reflexivity|].
  all: walk.
  all: first
    [ reflexivity
    | left; reflexivity
    | right; repeat split;
      first [ reflexivity | assumption | apply String.eqb_eq; assumption ] ].
Qed.


Lemma mutating_pool_query bin z : mutating (zpool_cmd bin z) = false.
Proof. reflexivity. Qed.

Lemma mutating_info bin z u : mutating (imgadm_cmd bin "info" z u) = false.
Proof. reflexivity. Qed.

Lemma mutating_import bin z u : mutating (imgadm_cmd bin "import" z u) = true.
Proof. reflexivity. Qed.

Lemma mutating_delete bin z u : mutating (imgadm_cmd bin "delete" z u) = true.
Proof. reflexivity. Qed.

(** Finds the last import or delete of an explicit list of commands. *)
Ltac find_last_mutating :=
  cbv beta iota delta [last_mutating last_mutating_from app];
  rewrite ?mutating_pool_query, ?mutating_info, ?mutating_import, ?mutating_delete;
  cbv beta iota.

(** An answer whose exit code tested equal to 0 has exit code 0. *)
Ltac exit_zero :=
  repeat match goal with
         | H : (?z =? 0)%Z = true |- _ => apply Z.eqb_eq in H; subst z
         end.

Ltac walk_streams :=
  repeat (unfold_run;
          rewrite ?getattr_import_image, ?getattr_delete, ?getattr_update;
          unfold_run; find_last_mutating;
          try first [use_known | split_innermost];
          try solve [intros; congruence]).

(** The two streams of a report: those of the last import or delete of the
    run; without one, an empty [stderr] and the text of [main] itself. *)
Lemma report_streams py m r :
  outcome py m = inl (ExitJson r) ->
  exists o e,
    r !! "stdout" = Some (PyStr o) /\
    r !! "stderr" = Some (PyStr e) /\
    match last_mutating (commands py m) with
    | Some (history, cmd) => run_command m history cmd = (0%Z, o, e)
    | None =>
        e = "" /\
        exists zp,
          get_bin_path m "zpool" = Some zp /\
          o = own_message py m (probe py m [zpool_cmd zp (params_zpool m)])
    end.
Proof.
  unfold own_message. walk_streams.
  all: try (exfalso; eapply eqb_present_absent; eassumption).
  all: intros [= <-].
  all: do 2 eexists; (do 2 (split; [reflexivity|])).
  all: first
    [ exit_zero; assumption
    | split; [reflexivity|]; eexists; split; [reflexivity|]; walk; reflexivity ].
Qed.

(** C7: a report has [stdout] and [stderr] as strings: the streams captured
    from the last import or delete of the run, which exited 0; in a run
    without import and delete, an empty [stderr] and in [stdout] the text
    [main] itself assigned, empty where it assigned none.  It has the
    identifier, the state and the pool of the request.  The last command of
    the run is the closing probe.  When that probe finds the image,
    [manifest] is the manifest it returned; when it finds none, the closing
    lines attach nothing: the report has no [manifest], unless the check-mode
    branch for state present had put its placeholder there. *)
Theorem report_contents py m r :
  outcome py m = inl (ExitJson r) ->
  (exists o e,
     r !! "stdout" = Some (PyStr o) /\
     r !! "stderr" = Some (PyStr e) /\
     match last_mutating (commands py m) with
     | Some (history, cmd) => run_command m history cmd = (0%Z, o, e)
     | None =>
         e = "" /\
         exists zp,
           get_bin_path m "zpool" = Some zp /\
           o = own_message py m (probe py m [zpool_cmd zp (params_zpool m)])
     end /\
     (check_mode m = true -> e = "") /\
     (check_mode m = true -> params_state m = "absent" ->
      r !! "changed" = Some (PyBool true) -> o = "")) /\
  r !! "uuid" = Some (PyStr (params_uuid m)) /\
  r !! "state" = Some (PyStr (params_state m)) /\
  r !! "zpool" = Some (PyStr (params_zpool m)) /\
  exists (history : list (list string)) (bin : string),
    commands py m =
      (history ++ [imgadm_cmd bin "info" (params_zpool m) (params_uuid m)])%list /\
    match probe py m history with
    | Present v => r !! "manifest" = Some v
    | Absent =>
        r !! "manifest" = None \/
        (check_mode m = true /\ params_state m = "present" /\
         r !! "changed" = Some (PyBool true) /\
         r !! "manifest" = json_loads py faked_text)
    | Unusable => False
    end.
Proof.
  intros Ho.
  destruct (report_streams py m r Ho) as (o & e & Hout & Herr & Hs).
  destruct (report_fields py m r Ho)
    as ((o' & e' & Hout' & Herr' & H1 & H2) & Hrest).
  assert (o' = o) by congruence. assert (e' = e) by congruence. subst o' e'.
  split; [|exact Hrest].
  exists o, e. split; [exact Hout|]. split; [exact Herr|].
  split; [exact Hs|]. split; [exact H1|exact H2].
Qed.

Lemma report_contents_witness :
  exists r,
    outcome sample_py run_import = inl (ExitJson r) /\
    r !! "uuid" = Some (PyStr sample_uuid) /\
    r !! "manifest" = Some sample_manifest.
Proof.
  eexists. split; [vm_compute; reflexivity|].
  destruct (report_contents sample_py run_import _ eq_refl) as (_ & Hu & _).
  split; [exact Hu | reflexivity].
Defined.
(** * Further properties of the code *)

(** ** Validation *)

(** [has_valid_uuid] answers [True] exactly for a canonical identifier and
    for a canonical identifier followed by one newline; it runs no command
    and leaves the instance as it is. *)
Theorem validation_accepts_exactly h :
  IMAGE.has_valid_uuid h =
    (inr (canonical_uuid (uuid (image h)) || canonical_uuid_newline (uuid (image h))), h).
Proof.
  unfold IMAGE.has_valid_uuid, bind, self, ret. rewrite re_match_uuid. reflexivity.
Qed.

Lemma fits_length t s : fits t s = true -> String.length s = List.length t.
Proof.
  revert s. induction t as [|p t IH]; intros [|c s]; simpl; try discriminate.
  - reflexivity.
  - intros H. apply andb_true_iff in H as [_ H]. f_equal. apply IH. exact H.
Qed.

Lemma fits_chars t s c :
  fits t s = true -> In c (list_ascii_of_string s) ->
  exists p, In p t /\ slot_ok p c = true.
Proof.
  revert s. induction t as [|p t IH]; intros [|a s]; simpl; try discriminate.
  - intros _ [].
  - intros H [<-|Hin]; apply andb_true_iff in H as [Ha H].
    + exists p. split; [left; reflexivity|exact Ha].
    + destruct (IH s H Hin) as (q & Hq & Hok). exists q. split; [right; exact Hq|exact Hok].
Qed.

(** The slots of the two accepted forms. *)
Lemma accepted_slots p :
  In p (uuid_template ++ [Exactly newline])%list ->
  p = Hex \/ p = Exactly "-" \/ p = Exactly newline.
Proof.
  intros H.
  assert (Hall : forallb (fun q => match q with
                                   | Hex => true
                                   | Exactly d => Ascii.eqb d "-" || Ascii.eqb d newline
                                   end)
                   (uuid_template ++ [Exactly newline])%list = true) by reflexivity.
  rewrite forallb_forall in Hall. specialize (Hall p H).
  destruct p as [|d]; [left; reflexivity|].
  apply orb_true_iff in Hall as [Hd|Hd]; apply Ascii.eqb_eq in Hd; subst d; auto.
Qed.

Lemma accepted_alphabet s :
  re_match UUID_REGEX s = true ->
  (String.length s = 36 \/ String.length s = 37) /\
  forall c, In c (list_ascii_of_string s) ->
    is_lower_hex c = true \/ c = "-"%char \/ c = newline.
Proof.
  rewrite re_match_uuid. intros H. apply orb_true_iff in H as [H|H].
  - split; [left; exact (fits_length _ _ H)|].
    intros c Hc. destruct (fits_chars _ _ c H Hc) as (p & Hp & Hok).
    assert (Hp' : In p (uuid_template ++ [Exactly newline])%list)
      by (apply in_or_app; left; exact Hp).
    destruct (accepted_slots p Hp') as [->|[->| ->]]; simpl in Hok;
      [left; exact Hok | right; left | right; right]; apply Ascii.eqb_eq; exact Hok.
  - split; [right; exact (fits_length _ _ H)|].
    intros c Hc. destruct (fits_chars _ _ c H Hc) as (p & Hp & Hok).
    destruct (accepted_slots p Hp) as [->|[->| ->]]; simpl in Hok;
      [left; exact Hok | right; left | right; right]; apply Ascii.eqb_eq; exact Hok.
Qed.

(** An identifier that passes the validation has 36 or 37 characters, each a
    lower-case hexadecimal digit, a hyphen or a newline. *)
Theorem accepted_uuid_alphabet s :
  re_match UUID_REGEX s = true ->
  (String.length s = 36 \/ String.length s = 37) /\
  forall c, In c (list_ascii_of_string s) ->
    is_lower_hex c = true \/ c = "-"%char \/ c = newline.
Proof. exact (accepted_alphabet s). Qed.

Lemma accepted_uuid_alphabet_witness :
  String.length sample_uuid = 36 \/ String.length sample_uuid = 37.
Proof.
  destruct (accepted_uuid_alphabet sample_uuid) as [H _].
  - reflexivity.
  - exact H.
Defined.

(** An identifier with a character that is no lower-case hexadecimal digit,
    hyphen or newline, such as the colon of a docker name, ends the run in
    the invalid-identifier failure before any command is issued. *)
Theorem foreign_character_is_refused py m c :
  In c (list_ascii_of_string (params_uuid m)) ->
  is_lower_hex c = false -> c <> "-"%char -> c <> newline ->
  outcome py m =
    inl (FailJson (failure "Invalid image UUID." (params_uuid m) (params_zpool m))) /\
  commands py m = [].
Proof.
  intros Hin Hhex Hh Hn.
  destruct (re_match UUID_REGEX (params_uuid m)) eqn:Hv.
  - destruct (accepted_alphabet _ Hv) as [_ Hall].
    destruct (Hall c Hin) as [H|[H|H]]; congruence.
  - exact (refused_uuid_fails_first py m Hv).
Qed.

Lemma foreign_character_is_refused_witness :
  outcome sample_py run_docker =
    inl (FailJson (failure "Invalid image UUID." "busybox:latest" "zones")) /\
  commands sample_py run_docker = [].
Proof.
  apply (foreign_character_is_refused sample_py run_docker ":"%char).
  - vm_compute. do 7 right. left. reflexivity.
  - reflexivity.
  - discriminate.
  - discriminate.
Defined.

(** An identifier outside the two accepted forms ends the run in the
    invalid-identifier failure with no command issued, whatever the state,
    the mode, the pool and the executables of the host. *)
Theorem refused_before_any_host_access py m :
  canonical_uuid (params_uuid m) = false ->
  canonical_uuid_newline (params_uuid m) = false ->
  outcome py m =
    inl (FailJson (failure "Invalid image UUID." (params_uuid m) (params_zpool m))) /\
  commands py m = [].
Proof.
  intros H1 H2. apply refused_uuid_fails_first.
  rewrite re_match_uuid, H1, H2. reflexivity.
Qed.

Lemma refused_before_any_host_access_witness :
  commands sample_py
    (without_executable "zpool"
       (sample_module "D183F500-9A96-11E6-8976-FF3967DC023A" "absent" "tank" true true
          [] false 1)) = [].
Proof.
  destruct (refused_before_any_host_access sample_py
              (without_executable "zpool"
                 (sample_module "D183F500-9A96-11E6-8976-FF3967DC023A" "absent" "tank"
                    true true [] false 1))) as [_ H].
  - reflexivity.
  - reflexivity.
  - exact H.
Defined.

(** ** Executables *)

(** When the host has no [zpool], a run with an accepted identifier is ended
    by [get_bin_path], through the failure the library reports for a missing
    executable, before any command is issued; there is no report. *)
Theorem missing_zpool_aborts py m :
  re_match UUID_REGEX (params_uuid m) = true ->
  get_bin_path m "zpool" = None ->
  outcome py m = inl (NoExecutable "zpool") /\ commands py m = [].
Proof.
  intros Hv Hzp. walk. split; reflexivity.
Qed.

Lemma missing_zpool_aborts_witness :
  outcome sample_py (without_executable "zpool" run_import) =
    inl (NoExecutable "zpool").
Proof.
  destruct (missing_zpool_aborts sample_py (without_executable "zpool" run_import))
    as [H _].
  - reflexivity.
  - reflexivity.
  - exact H.
Defined.

(** When the pool exists but the host has no [imgadm], the run is aborted by
    [get_bin_path] right after the pool query, in either mode and for any
    state. *)
Theorem missing_imgadm_aborts py m zp :
  re_match UUID_REGEX (params_uuid m) = true ->
  get_bin_path m "zpool" = Some zp ->
  exit_status (run_command m [] (zpool_cmd zp (params_zpool m))) = 0%Z ->
  get_bin_path m "imgadm" = None ->
  outcome py m = inl (NoExecutable "imgadm") /\
  commands py m = [zpool_cmd zp (params_zpool m)].
Proof.
  intros Hv Hzp Hpool Hip. apply Z.eqb_eq in Hpool. revert Hpool. walk.
  all: intros _; split; reflexivity.
Qed.

Lemma missing_imgadm_aborts_witness :
  outcome sample_py (without_executable "imgadm" run_absent) =
    inl (NoExecutable "imgadm") /\
  commands sample_py (without_executable "imgadm" run_absent) =
    [["/usr/sbin/zpool"; "list"; "zones"]].
Proof.
  apply (missing_imgadm_aborts sample_py (without_executable "imgadm" run_absent)
           "/usr/sbin/zpool"); reflexivity.
Defined.

(** ** The commands of a run *)

Ltac image_commands :=
  repeat constructor;
  first [ left; reflexivity | right; left; reflexivity | right; right; reflexivity ].

(** A run that issues commands starts with the pool query, and whatever
    follows is an info, import or delete of the requested image, scoped to
    the requested pool. *)
Lemma commands_shape py m :
  commands py m = [] \/
  exists zp rest,
    get_bin_path m "zpool" = Some zp /\
    commands py m = zpool_cmd zp (params_zpool m) :: rest /\
    (rest = [] \/
     exists ip, get_bin_path m "imgadm" = Some ip /\ Forall (image_command m ip) rest).
Proof.
  walk.
  all: first
    [ left; reflexivity
    | right; do 2 eexists; split; [reflexivity|]; split; [reflexivity|];
      first [ left; reflexivity
            | right; eexists; split; [reflexivity|]; image_commands ] ].
Qed.

(** The commands of a run: first the pool query, then only info, import and
    delete of the requested image in the requested pool, through the
    executables that [get_bin_path] returned. *)
Theorem pool_query_then_image_commands py m :
  commands py m = [] \/
  exists zp rest,
    get_bin_path m "zpool" = Some zp /\
    commands py m = zpool_cmd zp (params_zpool m) :: rest /\
    (rest = [] \/
     exists ip, get_bin_path m "imgadm" = Some ip /\ Forall (image_command m ip) rest).
Proof. exact (commands_shape py m). Qed.

(** No run issues more than four commands. *)
Theorem at_most_four_commands py m :
  (List.length (commands py m) <= 4)%nat.
Proof.
  walk.
  all: try (exfalso; eapply eqb_present_absent; eassumption).
  all: simpl; lia.
Qed.



(** ** Import and delete *)

(** Normal mode, state present: an import that exits non-zero ends the run
    in the import failure with the exit code and streams of the import;
    neither an update nor the closing probe is run, with or without the
    update flag. *)
Theorem failed_import_stops_the_run py m zp ip rc o e :
  re_match UUID_REGEX (params_uuid m) = true ->
  params_state m = "present" ->
  check_mode m = false ->
  get_bin_path m "zpool" = Some zp ->
  exit_status (run_command m [] (zpool_cmd zp (params_zpool m))) = 0%Z ->
  get_bin_path m "imgadm" = Some ip ->
  run_command m [zpool_cmd zp (params_zpool m)]
    (imgadm_cmd ip "import" (params_zpool m) (params_uuid m)) = (rc, o, e) ->
  rc <> 0%Z ->
  outcome py m =
    inl (FailJson (command_failure "Error importing image!" (params_uuid m)
                     (params_zpool m) rc o e)) /\
  commands py m =
    [zpool_cmd zp (params_zpool m);
     imgadm_cmd ip "import" (params_zpool m) (params_uuid m)].
Proof.
  intros Hv Hs Hc Hzp Hpool Hip Himp Hrc.
  apply state_is_present in Hs as [Hp Ha].
  apply Z.eqb_eq in Hpool. apply Z.eqb_neq in Hrc. revert Hpool. walk.
  all: intros _; split; reflexivity.
Qed.

Lemma failed_import_stops_the_run_witness :
  outcome sample_py run_import_fails =
    inl (FailJson (command_failure "Error importing image!" sample_uuid "zones" 1 ""
                     "imgadm import: error")) /\
  commands sample_py run_import_fails =
    [["/usr/sbin/zpool"; "list"; "zones"];
     ["/usr/sbin/imgadm"; "import"; "-P"; "zones"; sample_uuid]].
Proof.
  apply (failed_import_stops_the_run sample_py run_import_fails
           "/usr/sbin/zpool" "/usr/sbin/imgadm" 1 "" "imgadm import: error");
    try reflexivity.
  discriminate.
Defined.

(** Normal mode, state present, no update flag: after an import that exits
    0 the report has [changed] false, the two streams of the import, and the
    manifest of the closing probe if that finds the image; the import is
    run without a probe before it. *)
Theorem import_report py m zp ip o e :
  re_match UUID_REGEX (params_uuid m) = true ->
  params_state m = "present" ->
  check_mode m = false ->
  params_update m = false ->
  get_bin_path m "zpool" = Some zp ->
  exit_status (run_command m [] (zpool_cmd zp (params_zpool m))) = 0%Z ->
  get_bin_path m "imgadm" = Some ip ->
  let import := imgadm_cmd ip "import" (params_zpool m) (params_uuid m) in
  let info := imgadm_cmd ip "info" (params_zpool m) (params_uuid m) in
  run_command m [zpool_cmd zp (params_zpool m)] import = (0%Z, o, e) ->
  probe py m [zpool_cmd zp (params_zpool m); import] <> Unusable ->
  exists r,
    outcome py m = inl (ExitJson r) /\
    r !! "changed" = Some (PyBool false) /\
    r !! "stdout" = Some (PyStr o) /\
    r !! "stderr" = Some (PyStr e) /\
    r !! "manifest" = probed_manifest (probe py m [zpool_cmd zp (params_zpool m); import]) /\
    commands py m = [zpool_cmd zp (params_zpool m); import; info].
Proof.
  intros Hv Hs Hc Hu Hzp Hpool Hip import info Himp.
  apply state_is_present in Hs as [Hp Ha].
  remember 0%Z as rc eqn:Hrc in Himp.
  assert (Hok : (rc =? 0)%Z = true) by (subst rc; reflexivity).
  apply Z.eqb_eq in Hpool. subst import info. revert Hpool.
  unfold probed_manifest. walk.
  all: read_off.
Qed.

Lemma import_report_witness :
  exists r,
    outcome sample_py run_import = inl (ExitJson r) /\
    r !! "stdout" = Some (PyStr "Imported image") /\
    r !! "manifest" = Some sample_manifest.
Proof.
  destruct (import_report sample_py run_import "/usr/sbin/zpool" "/usr/sbin/imgadm"
              "Imported image" "") as (r & Ho & _ & Hout & _ & Hm & _);
    try reflexivity.
  - vm_compute. discriminate.
  - exists r. repeat split; assumption.
Defined.

(** Normal mode, state absent, image found: after a delete that exits 0 the
    report has [changed] true and the two streams of the delete; it has a
    manifest only if the closing probe still finds the image. *)
Theorem delete_report py m zp ip v o e :
  re_match UUID_REGEX (params_uuid m) = true ->
  params_state m = "absent" ->
  check_mode m = false ->
  get_bin_path m "zpool" = Some zp ->
  exit_status (run_command m [] (zpool_cmd zp (params_zpool m))) = 0%Z ->
  get_bin_path m "imgadm" = Some ip ->
  let info := imgadm_cmd ip "info" (params_zpool m) (params_uuid m) in
  let delete := imgadm_cmd ip "delete" (params_zpool m) (params_uuid m) in
  probe py m [zpool_cmd zp (params_zpool m)] = Present v ->
  run_command m [zpool_cmd zp (params_zpool m); info] delete = (0%Z, o, e) ->
  probe py m [zpool_cmd zp (params_zpool m); info; delete] <> Unusable ->
  exists r,
    outcome py m = inl (ExitJson r) /\
    r !! "changed" = Some (PyBool true) /\
    r !! "stdout" = Some (PyStr o) /\
    r !! "stderr" = Some (PyStr e) /\
    r !! "manifest" =
      probed_manifest (probe py m [zpool_cmd zp (params_zpool m); info; delete]) /\
    commands py m = [zpool_cmd zp (params_zpool m); info; delete; info].
Proof.
  intros Hv Hs Hc Hzp Hpool Hip info delete H1 Hdel.
  apply state_is_absent in Hs as [Hp Ha].
  remember 0%Z as rc eqn:Hrc in Hdel.
  assert (Hok : (rc =? 0)%Z = true) by (subst rc; reflexivity).
  apply Z.eqb_eq in Hpool. subst info delete. revert Hpool H1.
  unfold probed_manifest. walk.
  all: read_off.
Qed.

Lemma delete_report_witness :
  exists r,
    outcome sample_py run_delete = inl (ExitJson r) /\
    r !! "changed" = Some (PyBool true) /\
    r !! "manifest" = None.
Proof.
  destruct (delete_report sample_py run_delete "/usr/sbin/zpool" "/usr/sbin/imgadm"
              sample_manifest "" "") as (r & Ho & Hch & _ & _ & Hm & _);
    try reflexivity.
  - vm_compute. discriminate.
  - exists r. repeat split; assumption.
Defined.

(** Normal mode, state absent, image found: a delete that exits non-zero
    ends the run in the delete failure with the exit code and streams of the
    delete, and the closing probe is not run. *)
Theorem failed_delete_stops_the_run py m zp ip v rc o e :
  re_match UUID_REGEX (params_uuid m) = true ->
  params_state m = "absent" ->
  check_mode m = false ->
  get_bin_path m "zpool" = Some zp ->
  exit_status (run_command m [] (zpool_cmd zp (params_zpool m))) = 0%Z ->
  get_bin_path m "imgadm" = Some ip ->
  let info := imgadm_cmd ip "info" (params_zpool m) (params_uuid m) in
  let delete := imgadm_cmd ip "delete" (params_zpool m) (params_uuid m) in
  probe py m [zpool_cmd zp (params_zpool m)] = Present v ->
  run_command m [zpool_cmd zp (params_zpool m); info] delete = (rc, o, e) ->
  rc <> 0%Z ->
  outcome py m =
    inl (FailJson (command_failure "Error deleting image!" (params_uuid m)
                     (params_zpool m) rc o e)) /\
  commands py m = [zpool_cmd zp (params_zpool m); info; delete].
Proof.
  intros Hv Hs Hc Hzp Hpool Hip info delete H1 Hdel Hrc.
  apply state_is_absent in Hs as [Hp Ha].
  apply Z.eqb_eq in Hpool. apply Z.eqb_neq in Hrc. subst info delete.
  revert Hpool H1. walk.
  all: read_off.
Qed.

Lemma failed_delete_stops_the_run_witness :
  outcome sample_py run_delete_fails =
    inl (FailJson (command_failure "Error deleting image!" sample_uuid "zones" 2 ""
                     "imgadm delete: error")) /\
  commands sample_py run_delete_fails =
    [["/usr/sbin/zpool"; "list"; "zones"];
     ["/usr/sbin/imgadm"; "info"; "-P"; "zones"; sample_uuid];
     ["/usr/sbin/imgadm"; "delete"; "-P"; "zones"; sample_uuid]].
Proof.
  apply (failed_delete_stops_the_run sample_py run_delete_fails
           "/usr/sbin/zpool" "/usr/sbin/imgadm" sample_manifest 2 ""
           "imgadm delete: error");
    first [ reflexivity | discriminate ].
Defined.

(** ** Check mode with the image installed *)

(** Two hypotheses about the same answer name the same value. *)
Ltac same_answer :=
  try congruence;
  repeat match goal with
         | H1 : ?t = inr ?a, H2 : ?t = inr ?b |- _ =>
             assert (a = b) by congruence; subst; clear H2
         | H1 : ?t = inl ?a, H2 : ?t = inl ?b |- _ =>
             assert (a = b) by congruence; subst; clear H2
         end.

(** Check mode, state present, image found with a manifest that has a name:
    the report has [changed] false, a message with the identifier and the
    name, an empty [stderr], and the manifest of the closing probe; only the
    pool query and the two probes are run. *)
Theorem check_mode_installed_image py m zp ip v name :
  check_mode m = true ->
  re_match UUID_REGEX (params_uuid m) = true ->
  params_state m = "present" ->
  get_bin_path m "zpool" = Some zp ->
  exit_status (run_command m [] (zpool_cmd zp (params_zpool m))) = 0%Z ->
  get_bin_path m "imgadm" = Some ip ->
  let info := imgadm_cmd ip "info" (params_zpool m) (params_uuid m) in
  probe py m [zpool_cmd zp (params_zpool m)] = Present v ->
  getitem v "name" = inr name ->
  probe py m [zpool_cmd zp (params_zpool m); info] <> Unusable ->
  exists r,
    outcome py m = inl (ExitJson r) /\
    r !! "changed" = Some (PyBool false) /\
    r !! "stdout" =
      Some (PyStr ("Image " +:+ params_uuid m +:+ " (" +:+ str_of py name +:+
                   ") is already installed, skipping.")) /\
    r !! "stderr" = Some (PyStr "") /\
    r !! "manifest" = probed_manifest (probe py m [zpool_cmd zp (params_zpool m); info]) /\
    commands py m = [zpool_cmd zp (params_zpool m); info; info].
Proof.
  intros Hc Hv Hs Hzp Hpool Hip info H1 Hname.
  apply state_is_present in Hs as [Hp Ha].
  apply Z.eqb_eq in Hpool. subst info. revert Hpool H1 Hname.
  unfold probed_manifest. walk.
  all: intros; simplify_eq; same_answer; read_off.
Qed.

Lemma check_mode_installed_image_witness :
  exists r,
    outcome sample_py run_check_installed = inl (ExitJson r) /\
    r !! "stdout" =
      Some (PyStr ("Image " +:+ sample_uuid +:+
                   " (debian-8) is already installed, skipping.")) /\
    r !! "manifest" = Some sample_manifest.
Proof.
  destruct (check_mode_installed_image sample_py run_check_installed
              "/usr/sbin/zpool" "/usr/sbin/imgadm" sample_manifest (PyStr "debian-8"))
    as (r & Ho & _ & Hout & _ & Hm & _); try reflexivity.
  - vm_compute. discriminate.
  - exists r. repeat split; assumption.
Defined.

(** Check mode, state present, image found, but its manifest cannot be
    subscripted by [name]: the run ends in the exception of that subscript
    right after the first probe, without a report. *)
Theorem check_mode_nameless_manifest py m zp ip v e :
  check_mode m = true ->
  re_match UUID_REGEX (params_uuid m) = true ->
  params_state m = "present" ->
  get_bin_path m "zpool" = Some zp ->
  exit_status (run_command m [] (zpool_cmd zp (params_zpool m))) = 0%Z ->
  get_bin_path m "imgadm" = Some ip ->
  probe py m [zpool_cmd zp (params_zpool m)] = Present v ->
  getitem v "name" = inl e ->
  outcome py m = inl (Raised e) /\
  commands py m =
    [zpool_cmd zp (params_zpool m);
     imgadm_cmd ip "info" (params_zpool m) (params_uuid m)].
Proof.
  intros Hc Hv Hs Hzp Hpool Hip H1 Hname.
  apply state_is_present in Hs as [Hp Ha].
  apply Z.eqb_eq in Hpool. revert Hpool H1 Hname. walk.
  all: intros; simplify_eq; same_answer; read_off.
Qed.

Lemma check_mode_nameless_manifest_witness :
  outcome nameless_py run_check_installed = inl (Raised (KeyError "name")) /\
  commands nameless_py run_check_installed =
    [["/usr/sbin/zpool"; "list"; "zones"];
     ["/usr/sbin/imgadm"; "info"; "-P"; "zones"; sample_uuid]].
Proof.
  apply (check_mode_nameless_manifest nameless_py run_check_installed
           "/usr/sbin/zpool" "/usr/sbin/imgadm" (PyDict ∅) (KeyError "name"));
    reflexivity.
Defined.

(** ** An info answer that cannot be used *)

(** State absent, either mode: when the info query exits 0 but its output
    is no JSON document with a manifest, the run ends in an exception right
    after that query; there is no report and nothing is deleted. *)
Theorem unusable_probe_raises py m zp ip :
  re_match UUID_REGEX (params_uuid m) = true ->
  params_state m = "absent" ->
  get_bin_path m "zpool" = Some zp ->
  exit_status (run_command m [] (zpool_cmd zp (params_zpool m))) = 0%Z ->
  get_bin_path m "imgadm" = Some ip ->
  probe py m [zpool_cmd zp (params_zpool m)] = Unusable ->
  (exists e, outcome py m = inl (Raised e)) /\
  commands py m =
    [zpool_cmd zp (params_zpool m);
     imgadm_cmd ip "info" (params_zpool m) (params_uuid m)].
Proof.
  intros Hv Hs Hzp Hpool Hip.
  apply state_is_absent in Hs as [Hp Ha].
  apply Z.eqb_eq in Hpool. revert Hpool. walk.
  all: read_off.
Qed.

Lemma unusable_probe_raises_witness :
  outcome sample_py run_garbled_info =
    inl (Raised (ValueError "No JSON object could be decoded")) /\
  commands sample_py run_garbled_info =
    [["/usr/sbin/zpool"; "list"; "zones"];
     ["/usr/sbin/imgadm"; "info"; "-P"; "zones"; sample_uuid]].
Proof.
  destruct (unusable_probe_raises sample_py run_garbled_info
              "/usr/sbin/zpool" "/usr/sbin/imgadm") as [_ Hc]; try reflexivity.
  split; [vm_compute; reflexivity | exact Hc].
Defined.

(** ** The update flag outside a normal-mode import *)

Ltac request_fields :=
  cbn [params_uuid params_state params_zpool params_update check_mode
       get_bin_path run_command].

Ltac walk_request :=
  repeat (unfold_run; request_fields;
          rewrite ?getattr_import_image, ?getattr_delete, ?getattr_update;
          unfold_run; request_fields;
          try first [use_known | split_innermost];
          try solve [intros; congruence]).

(** In check mode, and whenever the state is not present, the update flag
    changes neither how the run ends nor the commands it issues. *)
Theorem update_flag_ignored py m b :
  check_mode m = true \/ params_state m <> "present" ->
  outcome py (set_update m b) = outcome py m /\
  commands py (set_update m b) = commands py m.
Proof.
  destruct m as [u st z up ck gb rc]. unfold set_update. request_fields.
  intros [Hc|Hs].
  - subst ck. walk_request. all: split; reflexivity.
  - apply String.eqb_neq in Hs. walk_request. all: split; reflexivity.
Qed.

Lemma update_flag_ignored_witness :
  outcome sample_py (set_update run_check_present true) =
    outcome sample_py run_check_present /\
  commands sample_py (set_update run_delete true) = commands sample_py run_delete.
Proof.
  split.
  - apply (update_flag_ignored sample_py run_check_present true). left. reflexivity.
  - apply (update_flag_ignored sample_py run_delete true). right. discriminate.
Defined.

(** ** The keys of the report *)

(** A report has no other keys than [changed], [stdout], [stderr], [uuid],
    [state], [zpool] and [manifest]. *)
Theorem report_keys py m r :
  outcome py m = inl (ExitJson r) ->
  dom r ⊆ ({[ "changed"; "stdout"; "stderr"; "uuid"; "state"; "zpool"; "manifest" ]}
           : gset string).
Proof.
  walk.
  all: intros [= <-].
  all: rewrite ?dom_insert_L, dom_singleton_L.
  all: intros k; rewrite !elem_of_union, !elem_of_singleton; tauto.
Qed.

Lemma report_keys_witness :
  exists r,
    outcome sample_py run_import = inl (ExitJson r) /\
    dom r ⊆ ({[ "changed"; "stdout"; "stderr"; "uuid"; "state"; "zpool"; "manifest" ]}
             : gset string).
Proof.
  eexists. split; [vm_compute; reflexivity|].
  apply (report_keys sample_py run_import). reflexivity.
Defined.

(** ** What a report and a failure tell about the run *)

(** A report is only made for an identifier that passed the validation and
    a pool whose query exited 0. *)
Theorem report_implies_checks_passed py m r :
  outcome py m = inl (ExitJson r) ->
  re_match UUID_REGEX (params_uuid m) = true /\
  exists zp,
    get_bin_path m "zpool" = Some zp /\
    exit_status (run_command m [] (zpool_cmd zp (params_zpool m))) = 0%Z.
Proof.
  walk.
  all: intros _; split; [reflexivity|]; eexists; split; [reflexivity|].
  all: unfold_run; use_known; unfold_run; apply Z.eqb_eq; assumption.
Qed.

Lemma report_implies_checks_passed_witness :
  re_match UUID_REGEX (params_uuid run_absent) = true /\
  exists zp,
    get_bin_path run_absent "zpool" = Some zp /\
    exit_status (run_command run_absent [] (zpool_cmd zp (params_zpool run_absent))) = 0%Z.
Proof.
  assert (H : exists r, outcome sample_py run_absent = inl (ExitJson r))
    by (eexists; vm_compute; reflexivity).
  destruct H as [r Ho].
  exact (report_implies_checks_passed sample_py run_absent r Ho).
Defined.

(** In normal mode a report with [changed] true means that the state is
    absent and that the run probed, deleted with exit code 0, and probed
    again. *)
Theorem changed_means_deleted py m r :
  outcome py m = inl (ExitJson r) ->
  check_mode m = false ->
  r !! "changed" = Some (PyBool true) ->
  params_state m = "absent" /\
  exists zp ip,
    let info := imgadm_cmd ip "info" (params_zpool m) (params_uuid m) in
    let delete := imgadm_cmd ip "delete" (params_zpool m) (params_uuid m) in
    commands py m = [zpool_cmd zp (params_zpool m); info; delete; info] /\
    exit_status (run_command m [zpool_cmd zp (params_zpool m); info] delete) = 0%Z.
Proof.
  intros Ho Hc. revert Ho. walk.
  all: try (exfalso; eapply eqb_present_absent; eassumption).
  all: intros [= <-] Hch; try (vm_compute in Hch; discriminate).
  all: split; [apply String.eqb_eq; assumption|].
  all: do 2 eexists; split; [reflexivity|].
  all: unfold_run; use_known; unfold_run; apply Z.eqb_eq; assumption.
Qed.

Lemma changed_means_deleted_witness :
  params_state run_delete = "absent" /\
  commands sample_py run_delete =
    [["/usr/sbin/zpool"; "list"; "zones"];
     ["/usr/sbin/imgadm"; "info"; "-P"; "zones"; sample_uuid];
     ["/usr/sbin/imgadm"; "delete"; "-P"; "zones"; sample_uuid];
     ["/usr/sbin/imgadm"; "info"; "-P"; "zones"; sample_uuid]].
Proof.
  assert (H : exists r, outcome sample_py run_delete = inl (ExitJson r) /\
                        r !! "changed" = Some (PyBool true))
    by (eexists; split; vm_compute; reflexivity).
  destruct H as (r & Ho & Hch).
  destruct (changed_means_deleted sample_py run_delete r Ho eq_refl Hch) as [Hs _].
  split; [exact Hs | vm_compute; reflexivity].
Defined.


